(** * perun: the [monitor] command of [perun/cli.py]

    A shallow embedding of the command line entry point [monitor] and of the
    Python primitives it relies on ([list.index], slicing, [str.replace],
    the POSIX flavour of [pathlib]), followed by the properties of the
    monitoring protocol: rendezvous points, worker life cycle, stop signal,
    persistence and report. *)

From Stdlib Require Import String Ascii List Bool Arith ZArith Lia PrimFloat.
Import ListNotations.
Local Open Scope string_scope.
Local Open Scope list_scope.

(** ** Python built-ins on lists and strings *)

Module Py.

(** [l.index(x)]: position of the first element equal to [x]; [None] stands
    for the [ValueError] Python raises when there is none. *)
Fixpoint index (x : string) (l : list string) : option nat :=
  match l with
  | [] => None
  | y :: l' =>
      if String.eqb y x then Some 0
      else match index x l' with
           | Some i => Some (S i)
           | None => None
           end
  end.

(** [l[i:]] for [0 <= i]. *)
Definition slice_from {A : Type} (i : nat) (l : list A) : list A := skipn i l.

(** [s[i:]] on strings. *)
Fixpoint str_from (i : nat) (s : string) : string :=
  match i, s with
  | O, _ => s
  | S i', String _ s' => str_from i' s'
  | S _, EmptyString => EmptyString
  end.

(** [s.rfind(c)] for a one-character needle: the highest index holding [c]. *)
Fixpoint rfind (c : ascii) (s : string) : option nat :=
  match s with
  | EmptyString => None
  | String a s' =>
      match rfind c s' with
      | Some i => Some (S i)
      | None => if Ascii.eqb a c then Some 0 else None
      end
  end.

(** The scan of [s.replace(old, new)] for a non-empty [old]: left to right,
    every match is replaced and the scan resumes after the match, so the
    occurrences replaced do not overlap.  [skip] counts the characters of a
    match that are still to be dropped. *)
Fixpoint replace_scan (old new : string) (skip : nat) (s : string) : string :=
  match s with
  | EmptyString => EmptyString
  | String c s' =>
      match skip with
      | S k => replace_scan old new k s'
      | O =>
          if String.prefix old s
          then new ++ replace_scan old new (String.length old - 1) s'
          else String c (replace_scan old new 0 s')
      end
  end.

(** With an empty [old], Python puts [new] before every character and at the
    end of the string. *)
Fixpoint interleave (new : string) (s : string) : string :=
  match s with
  | EmptyString => new
  | String c s' => new ++ String c (interleave new s')
  end.

(** [s.replace(old, new)]. *)
Definition replace (old new : string) (s : string) : string :=
  match old with
  | EmptyString => interleave new s
  | String _ _ => replace_scan old new 0 s
  end.

(** [s.split(sep)] for a one-character separator. *)
Fixpoint split (sep : ascii) (s : string) : list string :=
  match s with
  | EmptyString => [EmptyString]
  | String c s' =>
      if Ascii.eqb c sep then EmptyString :: split sep s'
      else match split sep s' with
           | [] => [String c EmptyString]
           | w :: ws => String c w :: ws
           end
  end.

(** [s.lstrip(c)] for a one-character set. *)
Fixpoint lstrip (c : ascii) (s : string) : string :=
  match s with
  | String a s' => if Ascii.eqb a c then lstrip c s' else s
  | EmptyString => EmptyString
  end.

End Py.

(** ** [pathlib.Path], POSIX flavour *)

Module Path.

(** A parsed path: the root ([""], ["/"] or ["//"]) and the components. *)
Record t : Type := mk { root : string; parts : list string }.

Definition sep : ascii := "/"%char.

(** [splitroot]: exactly two leading slashes are kept as the root ["//"],
    any other number collapses to ["/"]. *)
Definition splitroot (s : string) : string * string :=
  match s with
  | String c _ =>
      if Ascii.eqb c sep then
        let stripped := Py.lstrip sep s in
        if Nat.eqb (String.length s - String.length stripped) 2
        then ("//", stripped) else ("/", stripped)
      else ("", s)
  | EmptyString => ("", s)
  end.

(** A component is kept unless it is empty or ["."]. *)
Definition keep (x : string) : bool :=
  negb (String.eqb x "") && negb (String.eqb x ".").

(** [Path(s)]. *)
Definition of_string (s : string) : t :=
  let (r, rel) := splitroot s in
  mk r (filter keep (Py.split sep rel)).

(** [str(p)]. *)
Definition to_string (p : t) : string :=
  match root p, parts p with
  | EmptyString, [] => "."
  | r, ps => r ++ String.concat "/" ps
  end.

(** [p.name]: the last component, [""] when there is none. *)
Definition name (p : t) : string := last (parts p) "".

(** [p.suffix]: the name from its last dot on, unless that dot opens or
    closes the name. *)
Definition suffix (p : t) : string :=
  let n := name p in
  match Py.rfind "."%char n with
  | Some i =>
      if Nat.ltb 0 i && Nat.ltb i (String.length n - 1)
      then Py.str_from i n else ""
  | None => ""
  end.

(** [p.stem]: the name without its suffix (what stripping only the trailing
    extension gives). *)
Definition stem (p : t) : string :=
  let n := name p in
  match Py.rfind "."%char n with
  | Some i =>
      if Nat.ltb 0 i && Nat.ltb i (String.length n - 1)
      then String.substring 0 i n else n
  | None => n
  end.

(** [p / s]: a rooted right operand replaces [p]. *)
Definition join (p : t) (s : string) : t :=
  let q := of_string s in
  match root q with
  | EmptyString => mk (root p) (parts p ++ parts q)
  | _ => q
  end.

End Path.

(** ** Values exchanged with the collaborators of the command *)

Definition DeviceId := string.

(** An element of [perun.backends]; the command only closes it. *)
Definition Backend := string.

(** What [LocalStorage.toDict()] returns; its layout belongs to the storage
    module. *)
Definition Dict := list (string * string).

(** [perun.storage.LocalStorage]: the command reads the object through
    [toDict()] and through its truth value ([if lStrg:]). *)
Record LocalStorage : Type := { toDict : Dict; truth : bool }.

(** Exceptions.  [ValueError] and [OtherException] derive from [Exception];
    [SystemExit] and [KeyboardInterrupt] derive from [BaseException] only. *)
Inductive PyExc : Type :=
| ValueError (msg : string)
| OtherException (name : string)
| SystemExit (code : Z)
| KeyboardInterrupt.

Definition is_Exception (e : PyExc) : bool :=
  match e with
  | ValueError _ | OtherException _ => true
  | SystemExit _ | KeyboardInterrupt => false
  end.

(** [multiprocessing.Event]: a flag that [set()] raises and [is_set()] reads;
    [wait()] returns once the flag is up. *)
Module Event.

Record t : Type := mk { flag : bool }.

Definition new : t := mk false.
Definition set (ev : t) : t := mk true.
Definition is_set (ev : t) : bool := flag ev.

End Event.

(** ** Calls the command makes on the outside world, in program order *)

Inductive Level : Type := Debug | Error.

Inductive Call : Type :=
| Log (lvl : Level) (what : string)
| GetDeviceConfiguration
| BackendClose (b : Backend)
| QueueNew
| ProcessStart (devices : list DeviceId) (frequency : float)
| StartWait
| Barrier
| ExecScript (path : string) (argv : list string)
| StopSet
| ProcessJoin
| ProcessClose
| QueueGet
| PathExists (p : string)
| Mkdir (p : string)
| StorageOpen (p : string)
| AddExperimentRun (data : option Dict)
| SaveDeviceData (expId : nat) (ls : LocalStorage)
| Postprocessing
| Report (expId : nat) (fmt : string)
| Print (text : string)
| StorageClose.

(** ** The process around the command *)

(** What the command finds when it runs: the state of the interpreter and
    the answers of the collaborators it calls.  The collaborators
    ([perun.getDeviceConfiguration], [Process], [Queue], the MPI
    communicator, [ExperimentStorage], [perun.postprocessing],
    [perun.report]) live outside [cli.py]; they are taken to return.  The
    two places where the command itself decides between returning and
    raising are modelled as such: [sys.argv.index] and the [try] statement
    around the script. *)
Record Env : Type := {
  rank : nat;                                 (* comm.rank *)
  argv0 : list string;                        (* sys.argv at entry *)
  backends : list Backend;                    (* perun.backends *)
  device_configuration : list DeviceId;       (* getDeviceConfiguration(...) *)
  script_run : list string -> option PyExc;   (* open + exec of the script,
                                                 under the sys.argv it sees *)
  worker_storage : LocalStorage;              (* what the worker hands off *)
  outdir_present : bool;                      (* outPath.exists() *)
  run_id : nat;                               (* addExperimentRun(...) *)
  report_text : string                        (* perun.report(...) *)
}.

(** The state the command changes. *)
Record World : Type := {
  sys_argv : list string;
  start_event : Event.t;
  stop_event : Event.t;
  outdir_exists : bool;
  trace : list Call
}.

(** The parameters click hands to [monitor]. *)
Record Args : Type := {
  script : string;
  script_args : list string;
  frequency : float;
  outdir : string;
  format : string
}.

(** ** A state and exception monad for the body of the command *)

Inductive res (A : Type) : Type :=
| Val (a : A)
| Exc (e : PyExc).
Arguments Val {A} a.
Arguments Exc {A} e.

Definition M (A : Type) : Type := Env -> World -> res A * World.

Definition ret {A : Type} (a : A) : M A := fun _ w => (Val a, w).

Definition bind {A B : Type} (m : M A) (k : A -> M B) : M B :=
  fun env w =>
    match m env w with
    | (Val a, w') => k a env w'
    | (Exc e, w') => (Exc e, w')
    end.

Definition raise {A : Type} (e : PyExc) : M A := fun _ w => (Exc e, w).

(** [try: body except Exception as e: handler e]: only exceptions deriving
    from [Exception] reach the handler. *)
Definition try_except {A : Type} (body : M A) (handler : PyExc -> M A) : M A :=
  fun env w =>
    match body env w with
    | (Val a, w') => (Val a, w')
    | (Exc e, w') => if is_Exception e then handler e env w' else (Exc e, w')
    end.

Declare Scope monitor_scope.
Delimit Scope monitor_scope with monitor.
Notation "x <- m ;; k" := (bind m (fun x => k))
  (at level 61, m at next level, right associativity) : monitor_scope.
Notation "m ;; k" := (bind m (fun _ => k))
  (at level 61, right associativity) : monitor_scope.
Local Open Scope monitor_scope.

Definition ask : M Env := fun env w => (Val env, w).

Definition call (c : Call) : M unit :=
  fun _ w =>
    (Val tt, {| sys_argv := sys_argv w; start_event := start_event w;
                stop_event := stop_event w; outdir_exists := outdir_exists w;
                trace := trace w ++ [c] |}).

Definition get_argv : M (list string) := fun _ w => (Val (sys_argv w), w).

Definition set_argv (l : list string) : M unit :=
  fun _ w =>
    (Val tt, {| sys_argv := l; start_event := start_event w;
                stop_event := stop_event w; outdir_exists := outdir_exists w;
                trace := trace w |}).

(** [for x in l: body x]. *)
Fixpoint for_each {A : Type} (l : list A) (body : A -> M unit) : M unit :=
  match l with
  | [] => ret tt
  | x :: l' => body x ;; for_each l' body
  end.

(** ** The collaborators, as the command calls them *)

Definition log (lvl : Level) (what : string) : M unit := call (Log lvl what).

(** [sys.argv.index(x)].  The exception is the [ValueError] Python raises at
    this point; its text is abridged (Python prints the value quoted, as
    [repr] does). *)
Definition argv_index (x : string) : M nat :=
  l <- get_argv ;;
  match Py.index x l with
  | Some i => ret i
  | None => raise (ValueError (x ++ " is not in list"))
  end.

Definition getDeviceConfiguration : M (list DeviceId) :=
  call GetDeviceConfiguration ;;
  env <- ask ;;
  ret (device_configuration env).

Definition backend_close (b : Backend) : M unit := call (BackendClose b).

Definition queue_new : M unit := call QueueNew.

(** [Process(target=perun.perunSubprocess, args=[...]).start()]. *)
Definition process_start (devices : list DeviceId) (f : float) : M unit :=
  call (ProcessStart devices f).

(** [start_event.wait()]: returns once the worker has raised the flag. *)
Definition start_event_wait : M unit :=
  call StartWait ;;
  fun _ w =>
    (Val tt, {| sys_argv := sys_argv w; start_event := Event.set (start_event w);
                stop_event := stop_event w; outdir_exists := outdir_exists w;
                trace := trace w |}).

(** [stop_event.set()]. *)
Definition stop_event_set : M unit :=
  call StopSet ;;
  fun _ w =>
    (Val tt, {| sys_argv := sys_argv w; start_event := start_event w;
                stop_event := Event.set (stop_event w);
                outdir_exists := outdir_exists w; trace := trace w |}).

Definition barrier : M unit := call Barrier.

(** [with open(path) as f: exec(f.read(), ...)]: the script runs under the
    current [sys.argv] and either finishes or raises. *)
Definition exec_script (path : string) : M unit :=
  l <- get_argv ;;
  call (ExecScript path l) ;;
  env <- ask ;;
  match script_run env l with
  | None => ret tt
  | Some e => raise e
  end.

Definition process_join : M unit := call ProcessJoin.
Definition process_close : M unit := call ProcessClose.

Definition queue_get : M LocalStorage :=
  call QueueGet ;;
  env <- ask ;;
  ret (worker_storage env).

Definition path_exists (p : Path.t) : M bool :=
  call (PathExists (Path.to_string p)) ;;
  fun _ w => (Val (outdir_exists w), w).

(** [p.mkdir(parents=True)]. *)
Definition path_mkdir (p : Path.t) : M unit :=
  call (Mkdir (Path.to_string p)) ;;
  fun _ w =>
    (Val tt, {| sys_argv := sys_argv w; start_event := start_event w;
                stop_event := stop_event w; outdir_exists := true;
                trace := trace w |}).

Definition storage_open (p : Path.t) : M unit :=
  call (StorageOpen (Path.to_string p)).

Definition addExperimentRun (data : option Dict) : M nat :=
  call (AddExperimentRun data) ;;
  env <- ask ;;
  ret (run_id env).

Definition saveDeviceData (expId : nat) (ls : LocalStorage) : M unit :=
  call (SaveDeviceData expId ls).

Definition postprocessing : M unit := call Postprocessing.

Definition report (expId : nat) (fmt : string) : M string :=
  call (Report expId fmt) ;;
  env <- ask ;;
  ret (report_text env).

Definition print (text : string) : M unit := call (Print text).

Definition storage_close : M unit := call StorageClose.

(** The truth value of an [Optional[LocalStorage]]. *)
Definition truthy (l : option LocalStorage) : bool :=
  match l with
  | Some ls => truth ls
  | None => false
  end.

(** ** The command *)

(** How the [try] statement around the script ends: the function goes on, or
    the handler has executed [return]. *)
Inductive Flow : Type := Continue | Return.

(** The path of the experiment file: [outPath / f"{scriptName}.hdf5"] with
    [scriptName = filePath.name.replace(filePath.suffix, "")]. *)
Definition scriptName (filePath : Path.t) : string :=
  Py.replace (Path.suffix filePath) "" (Path.name filePath).

Definition resultPath (outPath filePath : Path.t) : Path.t :=
  Path.join outPath (scriptName filePath ++ ".hdf5").

Definition monitor (a : Args) : M unit :=
  env <- ask ;;
  (* Setup script arguments *)
  let filePath := Path.of_string (script a) in
  let outPath := Path.of_string (outdir a) in
  log Debug "Script path" ;;
  argIndex <- argv_index (Path.to_string filePath) ;;
  l <- get_argv ;;
  set_argv (Py.slice_from argIndex l) ;;
  log Debug "Script args" ;;
  (* Get node devices *)
  log Debug "Backends" ;;
  lDeviceIds <- getDeviceConfiguration ;;
  for_each (backends env) backend_close ;;
  log Debug "lDeviceIds" ;;
  (* If assigned devices, start subprocess *)
  (if Nat.ltb 0 (List.length lDeviceIds) then
     queue_new ;;
     process_start lDeviceIds (frequency a) ;;
     start_event_wait
   else ret tt) ;;
  (* Sync everyone *)
  barrier ;;
  (* Start script *)
  flow <- try_except
            (exec_script (Path.to_string filePath) ;; ret Continue)
            (fun e =>
               log Error "Failed to open file" ;;
               log Error "exception" ;;
               stop_event_set ;;
               ret Return) ;;
  match flow with
  | Return => ret tt
  | Continue =>
      stop_event_set ;;
      (* Obtain perun subprocess results *)
      lStrg <- (if Nat.ltb 0 (List.length lDeviceIds) then
                  process_join ;;
                  process_close ;;
                  ls <- queue_get ;;
                  ret (Some ls)
                else ret None) ;;
      (* Sync *)
      barrier ;;
      (* Save raw data to hdf5 *)
      (if Nat.eqb (rank env) 0 then
         present <- path_exists outPath ;;
         if negb present then path_mkdir outPath else ret tt
       else ret tt) ;;
      log Debug "Result path" ;;
      storage_open (resultPath outPath filePath) ;;
      expId <- (if truthy lStrg then
                  log Debug "Creating new experiment" ;;
                  match lStrg with
                  | Some ls =>
                      expId <- addExperimentRun (Some (toDict ls)) ;;
                      saveDeviceData expId ls ;;
                      ret expId
                  | None => addExperimentRun None
                  end
                else addExperimentRun None) ;;
      (* Post post-process *)
      barrier ;;
      postprocessing ;;
      barrier ;;
      (if Nat.eqb (rank env) 0 then
         text <- report expId (format a) ;;
         print text
       else ret tt) ;;
      barrier ;;
      storage_close
  end.

(** The world the command starts in: [Event()] twice, the interpreter's
    [sys.argv], nothing called yet. *)
Definition init (env : Env) : World :=
  {| sys_argv := argv0 env; start_event := Event.new; stop_event := Event.new;
     outdir_exists := outdir_present env; trace := [] |}.

(** One run of the command. *)
Definition run (a : Args) (env : Env) : res unit * World :=
  monitor a env (init env).

Definition calls (a : Args) (env : Env) : list Call := trace (snd (run a env)).

Definition outcome (a : Args) (env : Env) : res unit := fst (run a env).

(** The status the shell sees: [0] after a normal return, the low eight
    bits of the code of a [SystemExit], [1] for any other exception that
    leaves the command. *)
Definition exit_status (r : res unit) : Z :=
  match r with
  | Val _ => 0%Z
  | Exc (SystemExit c) => (c mod 256)%Z
  | Exc _ => 1%Z
  end.

(** ** Reading a trace *)

Definition is_barrier (c : Call) : bool :=
  match c with Barrier => true | _ => false end.

Definition is_stop_set (c : Call) : bool :=
  match c with StopSet => true | _ => false end.

Definition is_process_start (c : Call) : bool :=
  match c with ProcessStart _ _ => true | _ => false end.

Definition is_start_wait (c : Call) : bool :=
  match c with StartWait => true | _ => false end.

Definition is_join (c : Call) : bool :=
  match c with ProcessJoin => true | _ => false end.

(** Result collection: joining and closing the worker, reading the queue. *)
Definition is_collect (c : Call) : bool :=
  match c with ProcessJoin | ProcessClose | QueueGet => true | _ => false end.

Definition is_add_run (c : Call) : bool :=
  match c with AddExperimentRun _ => true | _ => false end.

(** Anything that touches the experiment storage. *)
Definition is_storage (c : Call) : bool :=
  match c with
  | StorageOpen _ | AddExperimentRun _ | SaveDeviceData _ _ | StorageClose => true
  | _ => false
  end.

Definition is_mkdir (c : Call) : bool :=
  match c with Mkdir _ => true | _ => false end.

(** Creating a shared output path: the directory or the experiment file. *)
Definition is_output_path (c : Call) : bool :=
  match c with Mkdir _ | StorageOpen _ => true | _ => false end.

Definition is_report (c : Call) : bool :=
  match c with Report _ _ | Print _ => true | _ => false end.

Definition is_backend (c : Call) : bool :=
  match c with BackendClose _ => true | _ => false end.

Definition is_resolve (c : Call) : bool :=
  match c with GetDeviceConfiguration => true | _ => false end.

Definition is_exec (c : Call) : bool :=
  match c with ExecScript _ _ => true | _ => false end.

Definition is_persist (c : Call) : bool :=
  match c with AddExperimentRun _ | SaveDeviceData _ _ => true | _ => false end.

Definition is_postprocessing (c : Call) : bool :=
  match c with Postprocessing => true | _ => false end.

(** Number of calls of a kind in a trace. *)
Definition count (p : Call -> bool) (tr : list Call) : nat :=
  List.length (filter p tr).

(** No call of a kind in a trace. *)
Definition none (p : Call -> bool) (tr : list Call) : Prop :=
  forall c, In c tr -> p c = false.

(** ** The segments of a run *)

Definition filePath (a : Args) : Path.t := Path.of_string (script a).
Definition outPath (a : Args) : Path.t := Path.of_string (outdir a).

Definition has_devices (env : Env) : bool :=
  Nat.ltb 0 (List.length (device_configuration env)).

(** From entry to the end of device resolution and backend release. *)
Definition setup_calls (env : Env) : list Call :=
  [Log Debug "Script path"; Log Debug "Script args"; Log Debug "Backends";
   GetDeviceConfiguration]
  ++ map BackendClose (backends env) ++ [Log Debug "lDeviceIds"].

Definition spawn_calls (a : Args) (env : Env) : list Call :=
  if has_devices env
  then [QueueNew; ProcessStart (device_configuration env) (frequency a);
        StartWait]
  else [].

Definition collect_calls (env : Env) : list Call :=
  if has_devices env then [ProcessJoin; ProcessClose; QueueGet] else [].

Definition mkdir_calls (a : Args) (env : Env) : list Call :=
  if Nat.eqb (rank env) 0 then
    PathExists (Path.to_string (outPath a))
    :: (if negb (outdir_present env)
        then [Mkdir (Path.to_string (outPath a))] else [])
  else [].

(** What the process hands to the storage. *)
Definition collected (env : Env) : option LocalStorage :=
  if has_devices env then Some (worker_storage env) else None.

Definition persist_calls (a : Args) (env : Env) : list Call :=
  [Log Debug "Result path";
   StorageOpen (Path.to_string (resultPath (outPath a) (filePath a)))]
  ++ match collected env with
     | Some ls =>
         if truth ls
         then [Log Debug "Creating new experiment";
               AddExperimentRun (Some (toDict ls));
               SaveDeviceData (run_id env) ls]
         else [AddExperimentRun None]
     | None => [AddExperimentRun None]
     end.

Definition report_calls (a : Args) (env : Env) : list Call :=
  if Nat.eqb (rank env) 0
  then [Report (run_id env) (format a); Print (report_text env)]
  else [].

(** The [sys.argv] the script runs under, when the script path is found. *)
Definition script_argv (a : Args) (env : Env) : option (list string) :=
  match Py.index (Path.to_string (filePath a)) (argv0 env) with
  | Some i => Some (Py.slice_from i (argv0 env))
  | None => None
  end.

(** How the script ends, when it is reached. *)
Inductive Workload : Type :=
| NotReached
| Completed
| Failed (e : PyExc)       (* an [Exception], caught by the command *)
| Escaped (e : PyExc).     (* a [BaseException] that is no [Exception] *)

Definition workload (a : Args) (env : Env) : Workload :=
  match script_argv a env with
  | None => NotReached
  | Some l =>
      match script_run env l with
      | None => Completed
      | Some e => if is_Exception e then Failed e else Escaped e
      end
  end.

(** The calls up to and including the start of the script. *)
Definition prefix_calls (a : Args) (env : Env) (l : list string) : list Call :=
  setup_calls env ++ spawn_calls a env
  ++ [Barrier; ExecScript (Path.to_string (filePath a)) l].

(** The calls after a script that completed. *)
Definition completion_calls (a : Args) (env : Env) : list Call :=
  [StopSet] ++ collect_calls env ++ [Barrier] ++ mkdir_calls a env
  ++ persist_calls a env ++ [Barrier; Postprocessing; Barrier]
  ++ report_calls a env ++ [Barrier; StorageClose].

(** The calls of the handler of a failed script. *)
Definition failure_calls : list Call :=
  [Log Error "Failed to open file"; Log Error "exception"; StopSet].

(** The readiness flag once the setup is over: raised exactly when a worker
    was awaited. *)
Definition started_event (env : Env) : Event.t :=
  if has_devices env then Event.set Event.new else Event.new.

(** The world after a run that reached the script. *)
Definition world_after (env : Env) (l : list string) (stop : Event.t)
  (dir : bool) (tr : list Call) : World :=
  {| sys_argv := l; start_event := started_event env; stop_event := stop;
     outdir_exists := dir; trace := tr |}.

(** The runs the stop signal is meant for: the script completed, or it
    failed with an [Exception]. *)
Definition settled (w : Workload) : bool :=
  match w with
  | Completed | Failed _ => true
  | NotReached | Escaped _ => false
  end.

(** A sampling frequency is usable when it is above zero. *)
Definition positive (f : float) : bool := PrimFloat.ltb 0%float f.

(** Removing every occurrence of [old], in words: scanning from the left,
    a copy of [old] at the head is dropped, any other character is kept. *)
Inductive RemoveAll (old : string) : string -> string -> Prop :=
| RemoveAll_end : RemoveAll old "" ""
| RemoveAll_hit (rest r : string) :
    RemoveAll old rest r -> RemoveAll old (old ++ rest) r
| RemoveAll_keep (c : ascii) (s r : string) :
    String.prefix old (String c s) = false ->
    RemoveAll old s r -> RemoveAll old (String c s) (String c r).

(** The whole trace of a run, by the way it ends. *)
Definition expected_calls (a : Args) (env : Env) : list Call :=
  match script_argv a env with
  | None => [Log Debug "Script path"]
  | Some l =>
      match script_run env l with
      | None => prefix_calls a env l ++ completion_calls a env
      | Some e =>
          if is_Exception e then prefix_calls a env l ++ failure_calls
          else prefix_calls a env l
      end
  end.

(** The phases a completed run goes through, a rendezvous between each
    two: setup and worker start; script, stop signal and result collection;
    output directory and persistence; postprocessing; report; closing. *)
Definition phases (a : Args) (env : Env) (l : list string) : list (list Call) :=
  [ setup_calls env ++ spawn_calls a env;
    ExecScript (Path.to_string (filePath a)) l :: StopSet :: collect_calls env;
    mkdir_calls a env ++ persist_calls a env;
    [Postprocessing];
    report_calls a env;
    [StorageClose] ].

Fixpoint join_barrier (ps : list (list Call)) : list Call :=
  match ps with
  | [] => []
  | [p] => p
  | p :: ps' => p ++ Barrier :: join_barrier ps'
  end.

(** Number of rendezvous of a run, by the way it ends. *)
Definition barriers_of (w : Workload) : nat :=
  match w with
  | NotReached => 0
  | Completed => 5
  | Failed _ | Escaped _ => 1
  end.

(** The world a run ends in. *)
Definition final (a : Args) (env : Env) : World := snd (run a env).

(** What a completed run registers with the storage: the data of the
    buffer, or the null marker. *)
Definition registered (env : Env) : option Dict :=
  match collected env with
  | Some ls => if truth ls then Some (toDict ls) else None
  | None => None
  end.

(** [str(filePath)]: the string looked up in [sys.argv] and opened. *)
Definition script_path (a : Args) : string := Path.to_string (filePath a).

(** ** The [postprocess] command *)

(** [postprocess EXP_HDF5]: open the experiment file, post-process it, close
    it. *)
Definition postprocess (exp_hdf5 : string) : M unit :=
  let expPath := Path.of_string exp_hdf5 in
  storage_open expPath ;;
  postprocessing ;;
  storage_close.

(** The calls of one run of [postprocess]. *)
Definition postprocess_calls (exp_hdf5 : string) (env : Env) : list Call :=
  trace (snd (postprocess exp_hdf5 env (init env))).

(** ** More ways to read a trace *)



Definition is_save (c : Call) : bool :=
  match c with SaveDeviceData _ _ => true | _ => false end.

Definition is_error_log (c : Call) : bool :=
  match c with Log Error _ => true | _ => false end.

Definition is_path_exists (c : Call) : bool :=
  match c with PathExists _ => true | _ => false end.

(** ** Paths in normal form *)

(** A string without [/]. *)
Fixpoint no_sep (s : string) : bool :=
  match s with
  | EmptyString => true
  | String c s' => negb (Ascii.eqb c Path.sep) && no_sep s'
  end.

(** A component of a parsed path: kept by the parser, and free of [/]. *)
Definition component (x : string) : bool := Path.keep x && no_sep x.

(** What [Path(s)] and [p / s] produce: one of the three roots and a list
    of components. *)
Definition normal (p : Path.t) : Prop :=
  (Path.root p = "" \/ Path.root p = "/" \/ Path.root p = "//") /\
  Forall (fun x => component x = true) (Path.parts p).

(** [old] occurs in [s] at position [k]. *)
Definition occurs_at (old s : string) (k : nat) : bool :=
  String.prefix old (Py.str_from k s).

(** ** Sample runs *)

Definition sample_args (s : string) (f : float) (o : string) : Args :=
  {| script := s; script_args := []; frequency := f; outdir := o;
     format := "txt" |}.

Definition sample_storage : LocalStorage :=
  {| toDict := [("cpu_0", "12.5")]; truth := true |}.

Definition sample_env (rk : nat) (argv : list string) (devs : list DeviceId)
  (behaviour : option PyExc) (present : bool) : Env :=
  {| rank := rk; argv0 := argv; backends := ["rapl"; "nvml"];
     device_configuration := devs; script_run := fun _ => behaviour;
     worker_storage := sample_storage; outdir_present := present;
     run_id := 0; report_text := "report" |}.

(** [perun monitor train.py --epochs 3] on rank 0, one device, the script
    completes. *)
Definition args_train : Args := sample_args "train.py" 1%float "./".
Definition env_train : Env :=
  sample_env 0 ["perun"; "monitor"; "train.py"; "--epochs"; "3"] ["cpu_0"]
    None false.

(** The same command on rank 1, which owns no device. *)
Definition env_train_idle : Env :=
  sample_env 1 ["perun"; "monitor"; "train.py"; "--epochs"; "3"] [] None true.

(** The same command when the script raises [RuntimeError]. *)
Definition env_train_fails : Env :=
  sample_env 0 ["perun"; "monitor"; "train.py"; "--epochs"; "3"] ["cpu_0"]
    (Some (OtherException "RuntimeError")) false.

(** [perun monitor -f 0 train.py]. *)
Definition args_zero_hz : Args := sample_args "train.py" 0%float "./".
Definition env_zero_hz : Env :=
  sample_env 0 ["perun"; "monitor"; "-f"; "0"; "train.py"] ["cpu_0"] None true.

(** [perun monitor ./train.py]: the path click hands over is normalised by
    [Path], the element of [sys.argv] is not. *)
Definition args_dot_slash : Args := sample_args "./train.py" 1%float "./".
Definition env_dot_slash : Env :=
  sample_env 0 ["perun"; "monitor"; "./train.py"] ["cpu_0"] None true.

(** [perun monitor -o out a.py.b.py]. *)
Definition args_two_suffixes : Args := sample_args "a.py.b.py" 1%float "out".
Definition env_two_suffixes : Env :=
  sample_env 0 ["perun"; "monitor"; "-o"; "out"; "a.py.b.py"] ["cpu_0"] None
    false.

(** ** The end of the command when a collaborator raises *)

(** From the result path to the close of the storage, [monitor] has no
    [try] statement: an exception raised by the storage, the communicator,
    the postprocessing or the report leaves the command at that call.  The
    calls of that part are embedded a second time, each able to raise. *)
Section Faults.

(** The exception a call raises, if it raises. *)
Variable faults : Call -> option PyExc.













End Faults.





(** ** More sample runs *)

(** [perun monitor train.py] when the script ends in [sys.exit(0)]. *)
Definition env_train_exit0 : Env :=
  sample_env 0 ["perun"; "monitor"; "train.py"] ["cpu_0"]
    (Some (SystemExit 0)) true.

(** [perun monitor train.py] when the script ends in [sys.exit(3)]. *)
Definition env_train_exits : Env :=
  sample_env 0 ["perun"; "monitor"; "train.py"] ["cpu_0"]
    (Some (SystemExit 3)) true.

(** A worker whose buffer object is falsy. *)
Definition env_train_falsy : Env :=
  {| rank := 1; argv0 := ["perun"; "monitor"; "train.py"];
     backends := ["rapl"]; device_configuration := ["cpu_0"];
     script_run := fun _ => None;
     worker_storage := {| toDict := []; truth := false |};
     outdir_present := true; run_id := 4; report_text := "report" |}.

(** * Properties *)

(** ** The Python primitives on sample values *)

Example index_first : Py.index "b" ["a"; "b"; "c"; "b"] = Some 1.
Proof. reflexivity. Qed.

Example replace_all_py : Py.replace ".py" "" "a.py.b.py" = "a.b".
Proof. reflexivity. Qed.

Example replace_no_overlap : Py.replace "aa" "x" "aaaaa" = "xxa".
Proof. reflexivity. Qed.

Example replace_empty_old : Py.replace "" "" "abc" = "abc".
Proof. reflexivity. Qed.

Example path_normalises : Path.to_string (Path.of_string "./x.py") = "x.py".
Proof. reflexivity. Qed.

Example path_cwd : Path.to_string (Path.of_string "./") = ".".
Proof. reflexivity. Qed.

Example path_two_slashes : Path.to_string (Path.of_string "//a//b/") = "//a/b".
Proof. reflexivity. Qed.

Example path_suffix : Path.suffix (Path.of_string "dir/a.py.b.py") = ".py".
Proof. reflexivity. Qed.

Example path_hidden_no_suffix : Path.suffix (Path.of_string ".bashrc") = "".
Proof. reflexivity. Qed.

Example path_join_rel :
  Path.to_string (Path.join (Path.of_string "./") "a.b.hdf5") = "a.b.hdf5".
Proof. reflexivity. Qed.

(** ** The monad *)

Lemma for_each_backend_close (bs : list Backend) (env : Env) (w : World) :
  for_each bs backend_close env w
  = (Val tt, {| sys_argv := sys_argv w; start_event := start_event w;
                stop_event := stop_event w; outdir_exists := outdir_exists w;
                trace := trace w ++ map BackendClose bs |}).
Proof.
  revert w. induction bs as [|b bs IH]; intros w; simpl.
  - unfold ret. rewrite app_nil_r. destruct w; reflexivity.
  - unfold bind, backend_close, call. simpl. rewrite IH. simpl.
    rewrite <- app_assoc. reflexivity.
Qed.

(** ** Closed forms of a run *)

Ltac step_monad :=
  cbv beta iota zeta delta
    [run monitor init bind ask ret raise log call argv_index get_argv set_argv
     getDeviceConfiguration try_except exec_script barrier queue_new
     process_start start_event_wait stop_event_set process_join process_close
     queue_get path_exists path_mkdir storage_open addExperimentRun
     saveDeviceData postprocessing report print storage_close truthy
     sys_argv start_event stop_event outdir_exists trace].

Section ClosedForms.

Variable a : Args.
Variable env : Env.

(** The script path is not in [sys.argv]: [ValueError] after the first log
    line. *)
Lemma run_not_reached :
  script_argv a env = None ->
  run a env
  = (Exc (ValueError (Path.to_string (filePath a) ++ " is not in list")),
     {| sys_argv := argv0 env; start_event := Event.new;
        stop_event := Event.new; outdir_exists := outdir_present env;
        trace := [Log Debug "Script path"] |}).
Proof.
  unfold script_argv, filePath. intros H. step_monad.
  destruct (Py.index _ _); [discriminate | reflexivity].
Qed.

(** The script is reached: the three ways the run ends. *)
Lemma run_reached (l : list string) :
  script_argv a env = Some l ->
  run a env
  = match script_run env l with
    | None =>
        (Val tt,
         world_after env l (Event.set Event.new)
           (if Nat.eqb (rank env) 0 then true else outdir_present env)
           (prefix_calls a env l ++ completion_calls a env))
    | Some e =>
        if is_Exception e
        then (Val tt,
              world_after env l (Event.set Event.new) (outdir_present env)
                (prefix_calls a env l ++ failure_calls))
        else (Exc e,
              world_after env l Event.new (outdir_present env)
                (prefix_calls a env l))
    end.
Proof.
  unfold script_argv, filePath. intros H. step_monad.
  destruct (Py.index _ _) as [i|]; [|discriminate].
  injection H as H. rewrite for_each_backend_close. step_monad.
  unfold world_after, prefix_calls, completion_calls, failure_calls,
    setup_calls, spawn_calls, collect_calls, mkdir_calls, persist_calls,
    report_calls, collected, started_event, has_devices, filePath, outPath.
  destruct (Nat.ltb 0 _); step_monad; rewrite H.
  all: destruct (script_run env l) as [e|]; [destruct (is_Exception e)|].
  all: step_monad; cbn [app].
  all: repeat (rewrite <- app_assoc; cbn [app]); try reflexivity.
  all: destruct (Nat.eqb (rank env) 0); step_monad.
  all: destruct (outdir_present env); cbn [negb]; step_monad.
  all: try destruct (truth (worker_storage env)); step_monad.
  all: cbn [app]; repeat (rewrite <- app_assoc; cbn [app]); reflexivity.
Qed.

(** The trace and the outcome, by the way the script ends. *)
Lemma calls_not_reached :
  workload a env = NotReached -> calls a env = [Log Debug "Script path"].
Proof.
  unfold workload, calls. intros H.
  destruct (script_argv a env) as [l|] eqn:E.
  - destruct (script_run env l) as [e|]; [destruct (is_Exception e)|];
      discriminate.
  - rewrite (run_not_reached E). reflexivity.
Qed.

Lemma outcome_not_reached :
  workload a env = NotReached ->
  outcome a env
  = Exc (ValueError (Path.to_string (filePath a) ++ " is not in list")).
Proof.
  unfold workload, outcome. intros H.
  destruct (script_argv a env) as [l|] eqn:E.
  - destruct (script_run env l) as [e|]; [destruct (is_Exception e)|];
      discriminate.
  - rewrite (run_not_reached E). reflexivity.
Qed.

Lemma run_completed :
  workload a env = Completed ->
  exists l,
    script_argv a env = Some l /\
    run a env
    = (Val tt,
       world_after env l (Event.set Event.new)
         (if Nat.eqb (rank env) 0 then true else outdir_present env)
         (prefix_calls a env l ++ completion_calls a env)).
Proof.
  unfold workload. intros H.
  destruct (script_argv a env) as [l|] eqn:E; [|discriminate].
  exists l. split; [reflexivity|]. rewrite (run_reached l E).
  destruct (script_run env l) as [e|]; [|reflexivity].
  destruct (is_Exception e); discriminate.
Qed.

Lemma run_failed (e : PyExc) :
  workload a env = Failed e ->
  exists l,
    script_argv a env = Some l /\
    run a env
    = (Val tt,
       world_after env l (Event.set Event.new) (outdir_present env)
         (prefix_calls a env l ++ failure_calls)).
Proof.
  unfold workload. intros H.
  destruct (script_argv a env) as [l|] eqn:E; [|discriminate].
  exists l. split; [reflexivity|]. rewrite (run_reached l E).
  destruct (script_run env l) as [e'|]; [|discriminate].
  destruct (is_Exception e'); [reflexivity | discriminate].
Qed.

Lemma run_escaped (e : PyExc) :
  workload a env = Escaped e ->
  exists l,
    script_argv a env = Some l /\
    run a env
    = (Exc e,
       world_after env l Event.new (outdir_present env) (prefix_calls a env l)).
Proof.
  unfold workload. intros H.
  destruct (script_argv a env) as [l|] eqn:E; [|discriminate].
  exists l. split; [reflexivity|]. rewrite (run_reached l E).
  destruct (script_run env l) as [e'|]; [|discriminate].
  destruct (is_Exception e'); [discriminate|].
  injection H as ->. reflexivity.
Qed.

End ClosedForms.

Lemma calls_eq (a : Args) (env : Env) : calls a env = expected_calls a env.
Proof.
  unfold calls, expected_calls.
  destruct (script_argv a env) as [l|] eqn:E.
  - rewrite (run_reached a env l E).
    destruct (script_run env l) as [e|]; [destruct (is_Exception e)|];
      reflexivity.
  - rewrite (run_not_reached a env E). reflexivity.
Qed.

Lemma calls_completed (a : Args) (env : Env) :
  workload a env = Completed ->
  exists l, script_argv a env = Some l /\
            calls a env = prefix_calls a env l ++ completion_calls a env.
Proof.
  intros H. destruct (run_completed a env H) as (l & E & R).
  exists l. split; [exact E|]. unfold calls. rewrite R. reflexivity.
Qed.

Lemma calls_failed (a : Args) (env : Env) (e : PyExc) :
  workload a env = Failed e ->
  exists l, script_argv a env = Some l /\
            calls a env = prefix_calls a env l ++ failure_calls.
Proof.
  intros H. destruct (run_failed a env e H) as (l & E & R).
  exists l. split; [exact E|]. unfold calls. rewrite R. reflexivity.
Qed.

Lemma calls_escaped (a : Args) (env : Env) (e : PyExc) :
  workload a env = Escaped e ->
  exists l, script_argv a env = Some l /\ calls a env = prefix_calls a env l.
Proof.
  intros H. destruct (run_escaped a env e H) as (l & E & R).
  exists l. split; [exact E|]. unfold calls. rewrite R. reflexivity.
Qed.

(** ** Counting calls in a trace *)

Lemma count_app (p : Call -> bool) (l1 l2 : list Call) :
  count p (l1 ++ l2) = count p l1 + count p l2.
Proof. unfold count. rewrite filter_app, length_app. reflexivity. Qed.

Lemma count_cons (p : Call -> bool) (c : Call) (l : list Call) :
  count p (c :: l) = (if p c then 1 else 0) + count p l.
Proof. unfold count. simpl. destruct (p c); reflexivity. Qed.

Lemma count_closes (p : Call -> bool) (bs : list Backend) :
  (forall b, p (BackendClose b) = false) ->
  count p (map BackendClose bs) = 0.
Proof.
  intros H. induction bs as [|b bs IH]; [reflexivity|].
  simpl. rewrite count_cons, H, IH. reflexivity.
Qed.

Lemma count_closes_backend (bs : list Backend) :
  count is_backend (map BackendClose bs) = List.length bs.
Proof.
  induction bs as [|b bs IH]; [reflexivity|].
  simpl. rewrite count_cons, IH. reflexivity.
Qed.

Lemma none_count (p : Call -> bool) (l : list Call) :
  count p l = 0 <-> none p l.
Proof.
  unfold none. induction l as [|c l IH].
  - split; [intros _ c [] | reflexivity].
  - rewrite count_cons. split.
    + intros H x [<-|Hx].
      * destruct (p c); [discriminate | reflexivity].
      * apply IH; [|exact Hx]. destruct (p c); [discriminate | exact H].
    + intros H. rewrite (H c (or_introl eq_refl)). apply IH.
      intros x Hx. apply H. right. exact Hx.
Qed.


(** Counting over the segments of a run: split at every append, cancel the
    backend releases, decide the branches, compute. *)
Ltac unfold_segments :=
  unfold prefix_calls, completion_calls, failure_calls, setup_calls,
    spawn_calls, collect_calls, mkdir_calls, persist_calls, report_calls,
    collected.

Ltac unfold_segments_in H :=
  unfold prefix_calls, completion_calls, failure_calls, setup_calls,
    spawn_calls, collect_calls, mkdir_calls, persist_calls, report_calls,
    collected in H.

Ltac branches :=
  repeat match goal with
         | |- context [if ?b then _ else _] => destruct b
         | |- context [match ?o with Some _ => _ | None => _ end] => destruct o
         end.

Ltac count_segments :=
  unfold_segments;
  repeat rewrite count_app;
  rewrite ?count_closes by (intros; reflexivity);
  branches; reflexivity.

Ltac none_segments := apply none_count; count_segments.

(** ** Sample runs, evaluated *)

Example train_completes : workload args_train env_train = Completed.
Proof. reflexivity. Qed.

Example train_fails :
  workload args_train env_train_fails = Failed (OtherException "RuntimeError").
Proof. reflexivity. Qed.

Example dot_slash_not_reached :
  workload args_dot_slash env_dot_slash = NotReached.
Proof. reflexivity. Qed.

(** A script that ends in [sys.exit(0)] escapes the handler: the run stops
    at the script, the stop flag is still down. *)
Example system_exit_escapes :
  let env := sample_env 0 ["perun"; "monitor"; "train.py"] ["cpu_0"]
               (Some (SystemExit 0)) true in
  outcome args_train env = Exc (SystemExit 0) /\
  count is_stop_set (calls args_train env) = 0 /\
  Event.is_set (stop_event (final args_train env)) = false.
Proof. repeat split. Qed.

(** ** Workload failure *)

(** C1, as the command behaves: whenever the script raises an [Exception],
    the handler logs it, raises the stop flag once, touches no experiment
    storage (so no run is persisted), and the command returns normally:
    the status the caller sees is zero. *)
Theorem workload_failure_aborts (a : Args) (env : Env) (e : PyExc) :
  workload a env = Failed e ->
  count is_stop_set (calls a env) = 1 /\
  Event.is_set (stop_event (final a env)) = true /\
  none is_storage (calls a env) /\
  count is_add_run (calls a env) = 0 /\
  In (Log Error "exception") (calls a env) /\
  outcome a env = Val tt /\
  exit_status (outcome a env) = 0%Z.
Proof.
  intros H. destruct (run_failed a env e H) as (l & E & R).
  unfold calls, outcome, final. rewrite R.
  cbn [fst snd world_after trace stop_event exit_status].
  repeat split.
  - count_segments.
  - none_segments.
  - count_segments.
  - apply in_or_app. right. simpl. auto.
Qed.

Lemma workload_failure_aborts_witness :
  workload args_train env_train_fails = Failed (OtherException "RuntimeError")
  /\ count is_stop_set (calls args_train env_train_fails) = 1
  /\ exit_status (outcome args_train env_train_fails) = 0%Z.
Proof.
  split; [reflexivity|].
  destruct (workload_failure_aborts args_train env_train_fails
              (OtherException "RuntimeError") eq_refl)
    as (W1 & _ & _ & _ & _ & _ & W7).
  split; [exact W1 | exact W7].
Defined.

(** C1 as stated fails: the script raises [RuntimeError] on a rank that
    spawned a worker; the worker is never joined and the status is zero. *)
Lemma workload_failure_no_join_zero_status :
  workload args_train env_train_fails = Failed (OtherException "RuntimeError")
  /\ count is_process_start (calls args_train env_train_fails) = 1
  /\ count is_join (calls args_train env_train_fails) = 0
  /\ exit_status (outcome args_train env_train_fails) = 0%Z
  /\ ~ (count is_join (calls args_train env_train_fails) = 1
        /\ exit_status (outcome args_train env_train_fails) <> 0%Z).
Proof.
  repeat split. intros [J _]. vm_compute in J. discriminate J.
Qed.

(** ** Rendezvous points *)

Lemma barrier_count (a : Args) (env : Env) :
  count is_barrier (calls a env) = barriers_of (workload a env).
Proof.
  rewrite calls_eq. unfold expected_calls, workload.
  destruct (script_argv a env) as [l|]; [|reflexivity].
  destruct (script_run env l) as [e|]; [destruct (is_Exception e)|];
    count_segments.
Qed.

Lemma join_barrier_phases (a : Args) (env : Env) (l : list string) :
  join_barrier (phases a env l)
  = prefix_calls a env l ++ completion_calls a env.
Proof.
  unfold phases, join_barrier, prefix_calls, completion_calls.
  repeat (rewrite <- app_assoc; cbn [app]). reflexivity.
Qed.

(** C2, as the command behaves: a run in which the script completes goes
    through six phases with one rendezvous between each two, five in all:
    after worker readiness and before the script; after the stop signal and
    result collection and before any output path is created; after
    persistence and before postprocessing; after postprocessing and before
    the report; after the report and before the storage is closed.  A run
    whose script raises makes the first rendezvous only, a run that does not
    reach the script makes none. *)
Theorem barrier_points (a : Args) (env : Env) :
  count is_barrier (calls a env) = barriers_of (workload a env) /\
  (workload a env = Completed ->
   exists l,
     script_argv a env = Some l /\
     calls a env = join_barrier (phases a env l) /\
     Forall (none is_barrier) (phases a env l) /\
     none is_exec (setup_calls env ++ spawn_calls a env) /\
     none is_output_path
       (setup_calls env ++ spawn_calls a env
        ++ ExecScript (Path.to_string (filePath a)) l :: StopSet
           :: collect_calls env) /\
     count is_persist (mkdir_calls a env ++ persist_calls a env)
     = count is_persist (calls a env) /\
     none is_postprocessing
       (setup_calls env ++ spawn_calls a env
        ++ ExecScript (Path.to_string (filePath a)) l :: StopSet
           :: collect_calls env ++ mkdir_calls a env ++ persist_calls a env)).
Proof.
  split; [apply barrier_count|].
  intros H. destruct (calls_completed a env H) as (l & E & C).
  exists l. split; [exact E|]. split.
  { rewrite C. symmetry. apply join_barrier_phases. }
  split.
  { unfold phases. repeat constructor; none_segments. }
  split; [none_segments|]. split; [none_segments|]. split.
  { rewrite C. count_segments. }
  none_segments.
Qed.

Lemma barrier_points_witness :
  count is_barrier (calls args_train env_train) = 5 /\
  exists l, calls args_train env_train = join_barrier (phases args_train env_train l).
Proof.
  destruct (barrier_points args_train env_train) as [N P].
  split; [exact N|].
  destruct (P eq_refl) as (l & _ & C & _). exists l. exact C.
Defined.

(** C2 as stated fails: a completed run makes five rendezvous, not three. *)
Lemma barrier_five_not_three :
  workload args_train env_train = Completed /\
  count is_barrier (calls args_train env_train) = 5 /\
  count is_barrier (calls args_train env_train) <> 3.
Proof.
  repeat split. intros H. vm_compute in H. discriminate H.
Qed.

(** ** Membership in a trace *)

(** Splits a hypothesis [In c tr] along the segments of [tr]; cases whose
    call has another constructor than [c] are closed. *)
Ltac in_cases H :=
  repeat match type of H with
         | In _ (_ ++ _) => apply in_app_or in H; destruct H as [H|H]
         | In _ (map _ _) =>
             apply in_map_iff in H; destruct H as (? & H & _);
             try discriminate H
         | In _ (if ?b then _ else _) => destruct b eqn:?
         | In _ (match ?o with Some _ => _ | None => _ end) => destruct o
         | In _ (_ :: _) => destruct H as [H|H]; [try discriminate H|]
         | In _ [] => destruct H
         end.

(** Finds a call in a trace given by its segments. *)
Ltac in_search :=
  match goal with
  | |- In _ (_ ++ _) =>
      apply in_or_app; first [left; in_search | right; in_search]
  | |- In _ (_ :: _) => first [left; reflexivity | right; in_search]
  | |- In _ (if true then _ else _) => cbv iota; in_search
  end.

Lemma has_devices_nonempty (env : Env) :
  has_devices env = true <-> device_configuration env <> [].
Proof.
  unfold has_devices. destruct (device_configuration env); simpl.
  - split; [discriminate | intros H; now elim H].
  - split; [discriminate | reflexivity].
Qed.

(** ** Sampling frequency *)

(** C3, as the command behaves: the frequency a worker is started with is
    the value of the [--frequency] option, handed over unchanged and
    unchecked (and the device list is the resolved, non-empty one); so the
    worker's frequency is above zero exactly when the option is. *)
Theorem worker_frequency_is_option (a : Args) (env : Env)
  (devs : list DeviceId) (f : float) :
  In (ProcessStart devs f) (calls a env) ->
  f = frequency a /\
  devs = device_configuration env /\
  devs <> [] /\
  positive f = positive (frequency a).
Proof.
  intros H. rewrite calls_eq in H. unfold expected_calls in H.
  assert (G : f = frequency a /\ devs = device_configuration env /\ devs <> []).
  { destruct (script_argv a env) as [l|]; [|in_cases H].
    destruct (script_run env l) as [e|]; [destruct (is_Exception e)|];
      unfold_segments_in H; in_cases H.
    all: injection H as E1 E2; subst devs f.
    all: repeat split; apply has_devices_nonempty; assumption. }
  destruct G as (-> & -> & G). repeat split. exact G.
Qed.

Lemma worker_frequency_is_option_witness :
  In (ProcessStart ["cpu_0"] 1%float) (calls args_train env_train) /\
  positive 1%float = positive (frequency args_train).
Proof.
  assert (H : In (ProcessStart ["cpu_0"] 1%float) (calls args_train env_train)).
  { vm_compute. do 8 right. left. reflexivity. }
  split; [exact H|].
  destruct (worker_frequency_is_option args_train env_train ["cpu_0"]
              1%float H) as (_ & _ & _ & P).
  exact P.
Defined.

(** C3 as stated fails: [perun monitor -f 0 train.py] starts the worker with
    frequency zero. *)
Lemma worker_frequency_zero :
  In (ProcessStart ["cpu_0"] 0%float) (calls args_zero_hz env_zero_hz) /\
  positive 0%float = false.
Proof.
  split; [|reflexivity].
  vm_compute. do 8 right. left. reflexivity.
Qed.

(** ** Stop signal *)

Lemma event_set_idempotent (ev : Event.t) :
  Event.set (Event.set ev) = Event.set ev.
Proof. reflexivity. Qed.

(** X12: on the two ways out of the script the command provides for (the
    script completes, or raises an [Exception]), the stop flag is raised
    exactly once, after the script was started and before any result
    collection or storage access; when the script completes it is the very
    next call.  The flag is up at the end of the run, and raising it again
    changes nothing. *)
Theorem stop_signal_once (a : Args) (env : Env) :
  settled (workload a env) = true ->
  count is_stop_set (calls a env) = 1 /\
  (exists pre post,
     calls a env = pre ++ StopSet :: post /\
     count is_exec pre = 1 /\
     none is_collect pre /\
     none is_storage pre /\
     (workload a env = Completed ->
      exists pre' path l, pre = pre' ++ [ExecScript path l])) /\
  Event.is_set (stop_event (final a env)) = true /\
  (forall ev : Event.t,
     Event.set (Event.set ev) = Event.set ev /\
     Event.is_set (Event.set (Event.set ev)) = Event.is_set (Event.set ev)).
Proof.
  intros S. destruct (workload a env) as [| |e|e] eqn:W; try discriminate S.
  - destruct (run_completed a env W) as (l & E & R).
    unfold calls, final. rewrite R. cbn [snd world_after trace stop_event].
    split; [count_segments|]. split; [|split; [reflexivity|]].
    + exists (prefix_calls a env l).
      exists (collect_calls env ++ [Barrier] ++ mkdir_calls a env
              ++ persist_calls a env ++ [Barrier; Postprocessing; Barrier]
              ++ report_calls a env ++ [Barrier; StorageClose]).
      split; [reflexivity|]. split; [count_segments|].
      split; [none_segments|]. split; [none_segments|].
      intros _. exists (setup_calls env ++ spawn_calls a env ++ [Barrier]).
      exists (Path.to_string (filePath a)), l.
      unfold prefix_calls. repeat (rewrite <- app_assoc; cbn [app]).
      reflexivity.
    + intros ev. split; reflexivity.
  - destruct (run_failed a env e W) as (l & E & R).
    unfold calls, final. rewrite R. cbn [snd world_after trace stop_event].
    split; [count_segments|]. split; [|split; [reflexivity|]].
    + exists (prefix_calls a env l
              ++ [Log Error "Failed to open file"; Log Error "exception"]).
      exists [].
      split.
      { unfold failure_calls. rewrite <- app_assoc. reflexivity. }
      split; [count_segments|].
      split; [none_segments|]. split; [none_segments|].
      intros C. discriminate C.
    + intros ev. split; reflexivity.
Qed.

Lemma stop_signal_once_witness :
  count is_stop_set (calls args_train env_train) = 1 /\
  count is_stop_set (calls args_train env_train_fails) = 1.
Proof.
  destruct (stop_signal_once args_train env_train eq_refl) as (C1 & _).
  destruct (stop_signal_once args_train env_train_fails eq_refl) as (C2 & _).
  split; [exact C1 | exact C2].
Defined.

(** C4: the stop signal is meant for every way out of the script, and one
    is missed.  [perun monitor train.py], on a rank that owns a device, with
    a script that ends in [sys.exit(0)]: the worker is started and the
    script is run, [SystemExit] passes the [except Exception] clause, and
    the command is left without the stop flag ever being raised. *)
Theorem stop_signal_missed_on_system_exit :
  workload args_train env_train_exit0 = Escaped (SystemExit 0) /\
  count is_process_start (calls args_train env_train_exit0) = 1 /\
  count is_exec (calls args_train env_train_exit0) = 1 /\
  count is_stop_set (calls args_train env_train_exit0) = 0 /\
  Event.is_set (stop_event (final args_train env_train_exit0)) = false /\
  outcome args_train env_train_exit0 = Exc (SystemExit 0).
Proof.
  repeat split.
Qed.

(** ** Worker start *)

(** C5: once the devices of a process are resolved, the run reaches its
    first rendezvous, and no worker is started or awaited after it.  With
    an empty device list no worker is started and the readiness flag is not
    awaited at all; with a non-empty list the worker is started, then the
    readiness flag is awaited, and the rendezvous comes right after. *)
Theorem worker_started_by_devices (a : Args) (env : Env) (l : list string) :
  script_argv a env = Some l ->
  exists pre post,
    calls a env = pre ++ Barrier :: post /\
    none is_barrier pre /\
    In GetDeviceConfiguration pre /\
    none is_process_start post /\
    none is_start_wait post /\
    (device_configuration env = [] ->
     none is_process_start pre /\ none is_start_wait pre /\
     Event.is_set (start_event (final a env)) = false) /\
    (device_configuration env <> [] ->
     exists pre',
       pre = pre' ++ [QueueNew;
                      ProcessStart (device_configuration env) (frequency a);
                      StartWait] /\
       none is_process_start pre' /\ none is_start_wait pre' /\
       Event.is_set (start_event (final a env)) = true).
Proof.
  intros E. exists (setup_calls env ++ spawn_calls a env).
  exists (ExecScript (Path.to_string (filePath a)) l
          :: match script_run env l with
             | None => completion_calls a env
             | Some e => if is_Exception e then failure_calls else []
             end).
  split.
  { rewrite calls_eq. unfold expected_calls. rewrite E.
    destruct (script_run env l) as [e|]; [destruct (is_Exception e)|];
      unfold prefix_calls; repeat (rewrite <- app_assoc; cbn [app]);
      rewrite ?app_nil_r; reflexivity. }
  split; [none_segments|].
  split.
  { apply in_or_app. left. unfold setup_calls. simpl. auto. }
  assert (F : start_event (final a env) = started_event env).
  { unfold final. rewrite (run_reached a env l E).
    destruct (script_run env l) as [e|]; [destruct (is_Exception e)|];
      reflexivity. }
  split.
  { destruct (script_run env l) as [e|]; [destruct (is_Exception e)|];
      none_segments. }
  split.
  { destruct (script_run env l) as [e|]; [destruct (is_Exception e)|];
      none_segments. }
  split.
  - intros D. rewrite F. unfold started_event, spawn_calls, has_devices.
    rewrite D. cbn [List.length Nat.ltb Nat.leb].
    repeat split; none_segments.
  - intros D. apply has_devices_nonempty in D.
    exists (setup_calls env). rewrite F. unfold started_event, spawn_calls.
    rewrite D. repeat split; none_segments.
Qed.

Lemma worker_started_by_devices_witness :
  (exists pre post, calls args_train env_train = pre ++ Barrier :: post) /\
  (exists pre post, calls args_train env_train_idle = pre ++ Barrier :: post).
Proof.
  destruct (worker_started_by_devices args_train env_train
              ["train.py"; "--epochs"; "3"] eq_refl) as (p1 & q1 & C1 & _).
  destruct (worker_started_by_devices args_train env_train_idle
              ["train.py"; "--epochs"; "3"] eq_refl) as (p2 & q2 & C2 & _).
  split; [exists p1, q1; exact C1 | exists p2, q2; exact C2].
Defined.

(** ** Result collection and registration *)

(** C6, as the command behaves: when the script completes, the stop signal
    is followed by the collection of the result (a process that started a
    worker joins it, closes it and reads the queue; a process without a
    worker does none of this and holds the null marker) and later by
    exactly one registration of a run, with the data of the buffer or with
    the null marker. *)
Theorem result_collected_and_registered (a : Args) (env : Env) :
  workload a env = Completed ->
  (exists pre mid post,
     calls a env
     = pre ++ StopSet :: collect_calls env ++ mid
       ++ AddExperimentRun (registered env) :: post /\
     none is_collect pre /\ none is_collect mid /\ none is_collect post /\
     none is_add_run pre /\ none is_add_run mid /\ none is_add_run post) /\
  count is_add_run (calls a env) = 1 /\
  (device_configuration env <> [] ->
   collect_calls env = [ProcessJoin; ProcessClose; QueueGet] /\
   collected env = Some (worker_storage env) /\
   registered env
   = if truth (worker_storage env)
     then Some (toDict (worker_storage env)) else None) /\
  (device_configuration env = [] ->
   collect_calls env = [] /\ collected env = None /\ registered env = None).
Proof.
  intros W. destruct (calls_completed a env W) as (l & E & C).
  split; [|split; [rewrite C; count_segments | split]].
  - exists (prefix_calls a env l).
    exists ([Barrier] ++ mkdir_calls a env
            ++ [Log Debug "Result path";
                StorageOpen
                  (Path.to_string (resultPath (outPath a) (filePath a)))]
            ++ match registered env with
               | Some _ => [Log Debug "Creating new experiment"]
               | None => []
               end).
    exists (match registered env, collected env with
            | Some _, Some ls => [SaveDeviceData (run_id env) ls]
            | _, _ => []
            end
            ++ [Barrier; Postprocessing; Barrier] ++ report_calls a env
            ++ [Barrier; StorageClose]).
    split.
    { rewrite C. unfold completion_calls, persist_calls, registered.
      destruct (collected env) as [ls|]; [destruct (truth ls)|];
        repeat (rewrite <- app_assoc; cbn [app]); reflexivity. }
    unfold registered.
    repeat split; none_segments.
  - intros D. apply has_devices_nonempty in D.
    unfold collect_calls, registered, collected. rewrite D.
    repeat split.
  - intros D. unfold collect_calls, registered, collected, has_devices.
    rewrite D. repeat split.
Qed.

Lemma result_collected_and_registered_witness :
  count is_add_run (calls args_train env_train) = 1 /\
  count is_add_run (calls args_train env_train_idle) = 1.
Proof.
  destruct (result_collected_and_registered args_train env_train eq_refl)
    as (_ & C1 & _).
  destruct (result_collected_and_registered args_train env_train_idle eq_refl)
    as (_ & C2 & _).
  split; [exact C1 | exact C2].
Defined.

(** C6 as stated fails: when the script raises [RuntimeError] the stop
    signal is set, yet the process that started a worker neither joins it
    nor reads the queue, and registers no run. *)
Lemma stop_without_collection :
  count is_stop_set (calls args_train env_train_fails) = 1 /\
  count is_process_start (calls args_train env_train_fails) = 1 /\
  count is_collect (calls args_train env_train_fails) = 0 /\
  count is_add_run (calls args_train env_train_fails) = 0 /\
  count is_add_run (calls args_train env_train_fails) <> 1.
Proof.
  repeat split. intros H. vm_compute in H. discriminate H.
Qed.

(** ** Actions of rank 0 *)

Lemma rank_eqb_false (env : Env) : rank env <> 0 -> Nat.eqb (rank env) 0 = false.
Proof. intros H. apply Nat.eqb_neq. exact H. Qed.

(** C7: a process whose rank is not 0 never creates the output directory
    and never renders or prints the report; the directory is created only
    by rank 0 and only when it does not exist; when the script completes,
    rank 0 creates the directory exactly when it is missing, and renders
    and prints the report. *)
Theorem singleton_actions_rank0 (a : Args) (env : Env) :
  (rank env <> 0 ->
   none is_mkdir (calls a env) /\ none is_report (calls a env)) /\
  (forall p, In (Mkdir p) (calls a env) ->
             rank env = 0 /\ outdir_present env = false /\
             p = Path.to_string (outPath a)) /\
  (forall c, In c (calls a env) -> is_report c = true -> rank env = 0) /\
  (rank env = 0 -> workload a env = Completed ->
   count is_mkdir (calls a env) = (if outdir_present env then 0 else 1) /\
   In (Report (run_id env) (format a)) (calls a env) /\
   In (Print (report_text env)) (calls a env)).
Proof.
  assert (N : rank env <> 0 ->
              none is_mkdir (calls a env) /\ none is_report (calls a env)).
  { intros R. apply rank_eqb_false in R. rewrite calls_eq.
    unfold expected_calls.
    destruct (script_argv a env) as [l|]; [|split; none_segments].
    destruct (script_run env l) as [e|]; [destruct (is_Exception e)|];
      split; apply none_count; unfold_segments; rewrite ?R; count_segments. }
  split; [exact N|]. split; [|split].
  - intros p H. destruct (Nat.eq_dec (rank env) 0) as [R|R].
    + split; [exact R|]. rewrite calls_eq in H. unfold expected_calls in H.
      destruct (script_argv a env) as [l|]; [|in_cases H].
      destruct (script_run env l) as [e|]; [destruct (is_Exception e)|];
        unfold_segments_in H; in_cases H.
      all: injection H as <-.
      all: split; [|reflexivity].
      all: match goal with
           | G : negb ?b = true |- _ =>
               destruct b; [discriminate G | reflexivity]
           end.
    + destruct (N R) as [M _]. specialize (M _ H). discriminate M.
  - intros c H P. destruct (Nat.eq_dec (rank env) 0) as [R|R]; [exact R|].
    destruct (N R) as [_ M]. specialize (M _ H). congruence.
  - intros R W. destruct (calls_completed a env W) as (l & E & C).
    apply Nat.eqb_eq in R. rewrite C. split; [|split].
    + unfold_segments. rewrite R.
      repeat rewrite count_app. rewrite ?count_closes by (intros; reflexivity).
      destruct (outdir_present env); cbn [negb]; branches; reflexivity.
    + unfold completion_calls, report_calls. rewrite R. in_search.
    + unfold completion_calls, report_calls. rewrite R. in_search.
Qed.

Lemma singleton_actions_rank0_witness :
  (none is_mkdir (calls args_train env_train_idle) /\
   none is_report (calls args_train env_train_idle)) /\
  count is_mkdir (calls args_train env_train) = 1.
Proof.
  destruct (singleton_actions_rank0 args_train env_train_idle) as (N & _).
  destruct (singleton_actions_rank0 args_train env_train) as (_ & _ & _ & P).
  split.
  - apply N. discriminate.
  - destruct (P eq_refl eq_refl) as (M & _). exact M.
Defined.

(** ** Backend handles *)

(** C8: in a run that resolves its devices, the resolution is followed at
    once by the release of every backend of the registry, in order; no
    worker is started before that, and no backend is touched nor any device
    resolved afterwards. *)
Theorem backends_closed_after_resolution (a : Args) (env : Env)
  (l : list string) :
  script_argv a env = Some l ->
  exists pre post,
    calls a env
    = pre ++ GetDeviceConfiguration :: map BackendClose (backends env) ++ post /\
    none is_backend pre /\ none is_process_start pre /\ none is_resolve pre /\
    none is_backend post /\ none is_resolve post /\
    count is_backend (calls a env) = List.length (backends env) /\
    (forall b, In b (backends env) -> In (BackendClose b) (calls a env)).
Proof.
  intros E.
  set (tail := match script_run env l with
               | None => completion_calls a env
               | Some e => if is_Exception e then failure_calls else []
               end).
  assert (C : calls a env = prefix_calls a env l ++ tail).
  { rewrite calls_eq. unfold expected_calls, tail. rewrite E.
    destruct (script_run env l) as [e|]; [destruct (is_Exception e)|];
      rewrite ?app_nil_r; reflexivity. }
  exists [Log Debug "Script path"; Log Debug "Script args";
          Log Debug "Backends"].
  exists ([Log Debug "lDeviceIds"] ++ spawn_calls a env
          ++ [Barrier; ExecScript (Path.to_string (filePath a)) l] ++ tail).
  split.
  { rewrite C. unfold prefix_calls, setup_calls.
    repeat (rewrite <- app_assoc; cbn [app]). reflexivity. }
  split; [none_segments|]. split; [none_segments|]. split; [none_segments|].
  split.
  { unfold tail.
    destruct (script_run env l) as [e|]; [destruct (is_Exception e)|];
      none_segments. }
  split.
  { unfold tail.
    destruct (script_run env l) as [e|]; [destruct (is_Exception e)|];
      none_segments. }
  split.
  { rewrite C. unfold tail, prefix_calls, setup_calls.
    repeat rewrite count_app. rewrite count_closes_backend.
    destruct (script_run env l) as [e|]; [destruct (is_Exception e)|];
      unfold_segments; repeat rewrite count_app; branches;
      unfold count; simpl; lia. }
  intros b B. rewrite C. unfold prefix_calls, setup_calls.
  apply in_or_app. left. apply in_or_app. left. apply in_or_app. right.
  apply in_or_app. left. apply in_map. exact B.
Qed.

Lemma backends_closed_after_resolution_witness :
  count is_backend (calls args_train env_train) = 2 /\
  In (BackendClose "nvml") (calls args_train env_train).
Proof.
  destruct (backends_closed_after_resolution args_train env_train
              ["train.py"; "--epochs"; "3"] eq_refl)
    as (pre & post & _ & _ & _ & _ & _ & _ & N & B).
  split; [exact N|]. apply B. simpl. auto.
Defined.

(** ** Name of the experiment file *)

Lemma prefix_split (p s : string) :
  String.prefix p s = true -> exists rest, s = (p ++ rest)%string.
Proof.
  revert s. induction p as [|c p IH]; intros s H.
  - exists s. reflexivity.
  - destruct s as [|d s]; [discriminate H|]. simpl in H.
    destruct (Ascii.ascii_dec c d) as [->|]; [|discriminate H].
    destruct (IH s H) as [rest ->]. exists rest. reflexivity.
Qed.

Lemma length_append (u v : string) :
  String.length (u ++ v) = String.length u + String.length v.
Proof.
  induction u as [|c u IH]; [reflexivity|]. simpl. rewrite IH. reflexivity.
Qed.

Lemma replace_scan_skip (old new w rest : string) :
  Py.replace_scan old new (String.length w) (w ++ rest)
  = Py.replace_scan old new 0 rest.
Proof.
  induction w as [|c w IH]; [reflexivity|]. simpl. exact IH.
Qed.

Lemma interleave_empty (s : string) : Py.interleave "" s = s.
Proof.
  induction s as [|c s IH]; [reflexivity|]. simpl. rewrite IH. reflexivity.
Qed.

(** [replace(old, "")] with a non-empty [old] removes every occurrence met
    by the scan from the left. *)
Lemma replace_removes_all (old s : string) :
  old <> "" -> RemoveAll old s (Py.replace old "" s).
Proof.
  intros N. destruct old as [|c0 old']; [now elim N|]. unfold Py.replace.
  remember (String.length s) as n eqn:L.
  assert (B : String.length s <= n) by lia. clear L.
  revert s B. induction n as [|n IH]; intros s B.
  - destruct s; [constructor | simpl in B; lia].
  - destruct s as [|c s]; [constructor|].
    cbn [Py.replace_scan].
    destruct (String.prefix (String c0 old') (String c s)) eqn:P.
    + destruct (prefix_split _ _ P) as [rest R].
      injection R as -> ->.
      replace (String.length (String c0 old') - 1) with (String.length old')
        by (simpl; lia).
      rewrite replace_scan_skip. cbn [String.append].
      apply (RemoveAll_hit (String c0 old') rest).
      apply IH. simpl in B. rewrite length_append in B. lia.
    + apply RemoveAll_keep; [exact P|]. apply IH. simpl in B. lia.
Qed.

(** C9: the experiment storage is opened at [outdir / (name ++ ".hdf5")],
    where [name] is the file name of the script with every occurrence of
    its suffix removed by [str.replace], not only the trailing one; a
    script without suffix keeps its name.  A completed run does open it.
    For [a.py.b.py] the name is [a.b], while stripping the trailing
    extension alone would give [a.py.b]. *)
Theorem experiment_file_name (a : Args) (env : Env) :
  (forall p, In (StorageOpen p) (calls a env) ->
             p = Path.to_string
                   (Path.join (outPath a) (scriptName (filePath a) ++ ".hdf5"))) /\
  (workload a env = Completed ->
   In (StorageOpen
         (Path.to_string
            (Path.join (outPath a) (scriptName (filePath a) ++ ".hdf5"))))
      (calls a env)) /\
  scriptName (filePath a)
  = Py.replace (Path.suffix (filePath a)) "" (Path.name (filePath a)) /\
  (Path.suffix (filePath a) <> "" ->
   RemoveAll (Path.suffix (filePath a)) (Path.name (filePath a))
     (scriptName (filePath a))) /\
  (Path.suffix (filePath a) = "" ->
   scriptName (filePath a) = Path.name (filePath a)) /\
  scriptName (Path.of_string "a.py.b.py") = "a.b" /\
  Path.stem (Path.of_string "a.py.b.py") = "a.py.b".
Proof.
  split; [|split; [|split; [reflexivity|split; [|split; [|split; reflexivity]]]]].
  - intros p H. rewrite calls_eq in H. unfold expected_calls in H.
    destruct (script_argv a env) as [l|]; [|in_cases H].
    destruct (script_run env l) as [e|]; [destruct (is_Exception e)|];
      unfold_segments_in H; in_cases H.
    all: injection H as <-; reflexivity.
  - intros W. destruct (calls_completed a env W) as (l & E & C).
    rewrite C. unfold completion_calls, persist_calls, resultPath. in_search.
  - intros N. unfold scriptName. apply replace_removes_all. exact N.
  - intros Z. unfold scriptName. rewrite Z. apply interleave_empty.
Qed.

Lemma experiment_file_name_witness :
  In (StorageOpen "out/a.b.hdf5") (calls args_two_suffixes env_two_suffixes) /\
  RemoveAll ".py" "a.py.b.py" "a.b".
Proof.
  destruct (experiment_file_name args_two_suffixes env_two_suffixes)
    as (_ & O & _ & R & _).
  split.
  - exact (O eq_refl).
  - apply R. discriminate.
Defined.

(** ** Script arguments *)

Lemma index_some (x : string) (l : list string) (i : nat) :
  Py.index x l = Some i ->
  nth_error l i = Some x /\
  (forall j, j < i -> nth_error l j <> Some x) /\
  exists rest, Py.slice_from i l = x :: rest.
Proof.
  revert i. induction l as [|y l IH]; intros i H; [discriminate H|].
  simpl in H. destruct (String.eqb_spec y x) as [->|N].
  - injection H as <-. split; [reflexivity|]. split.
    + intros j J. lia.
    + exists l. reflexivity.
  - destruct (Py.index x l) as [k|]; [|discriminate H].
    injection H as <-. destruct (IH k eq_refl) as (A & B & rest & C).
    split; [exact A|]. split.
    + intros [|j] J; simpl.
      * intros [= E]. exact (N E).
      * apply B. lia.
    + exists rest. exact C.
Qed.

Lemma index_none (x : string) (l : list string) :
  Py.index x l = None <-> ~ In x l.
Proof.
  induction l as [|y l IH]; simpl.
  - split; [intros _ [] | reflexivity].
  - destruct (String.eqb_spec y x) as [->|N].
    + split; [discriminate | intros H; elim H; left; reflexivity].
    + destruct (Py.index x l) as [k|] eqn:K.
      * split; [discriminate|]. intros H. exfalso. apply H. right.
        destruct (index_some x l k K) as (A & _).
        exact (nth_error_In l k A).
      * split; [|reflexivity]. intros _ [E|I]; [exact (N E)|].
        destruct IH as [IH _]. exact (IH eq_refl I).
Qed.

(** C10: when [sys.argv] holds the normalised script path, [sys.argv] is
    cut to start at its first occurrence before the script runs: the script
    runs under, and the command ends with, that path followed by the
    elements that came after it.  When [sys.argv] does not hold it, the
    command raises [ValueError] and has neither resolved devices, started a
    worker nor run the script. *)
Theorem argv_rewritten_or_value_error (a : Args) (env : Env) :
  (forall i, Py.index (script_path a) (argv0 env) = Some i ->
     nth_error (argv0 env) i = Some (script_path a) /\
     (forall j, j < i -> nth_error (argv0 env) j <> Some (script_path a)) /\
     exists rest,
       Py.slice_from i (argv0 env) = script_path a :: rest /\
       argv0 env = firstn i (argv0 env) ++ script_path a :: rest /\
       sys_argv (final a env) = script_path a :: rest /\
       In (ExecScript (script_path a) (script_path a :: rest)) (calls a env) /\
       (forall path l, In (ExecScript path l) (calls a env) ->
                       path = script_path a /\ l = script_path a :: rest)) /\
  (~ In (script_path a) (argv0 env) ->
   outcome a env = Exc (ValueError (script_path a ++ " is not in list")) /\
   none is_resolve (calls a env) /\
   none is_process_start (calls a env) /\
   none is_exec (calls a env) /\
   sys_argv (final a env) = argv0 env).
Proof.
  split.
  - intros i I. destruct (index_some _ _ _ I) as (A & B & rest & C).
    split; [exact A|]. split; [exact B|]. exists rest.
    split; [exact C|].
    assert (E : script_argv a env = Some (script_path a :: rest)).
    { unfold script_argv. fold (script_path a). rewrite I, C. reflexivity. }
    split.
    { rewrite <- C. symmetry. apply firstn_skipn. }
    split.
    { unfold final. rewrite (run_reached a env _ E).
      destruct (script_run env _) as [e|]; [destruct (is_Exception e)|];
        reflexivity. }
    rewrite calls_eq. unfold expected_calls. rewrite E.
    fold (script_path a). split.
    + destruct (script_run env _) as [e|]; [destruct (is_Exception e)|];
        unfold prefix_calls; fold (script_path a); in_search.
    + intros path l H.
      destruct (script_run env _) as [e|]; [destruct (is_Exception e)|];
        unfold_segments_in H; fold (script_path a) in H; in_cases H.
      all: injection H as <- <-; split; reflexivity.
  - intros N. apply index_none in N.
    assert (E : script_argv a env = None).
    { unfold script_argv. fold (script_path a). rewrite N. reflexivity. }
    unfold outcome, calls, final. rewrite (run_not_reached a env E).
    cbn [fst snd trace sys_argv]. fold (script_path a).
    repeat split; none_segments.
Qed.

Lemma argv_rewritten_or_value_error_witness :
  sys_argv (final args_train env_train) = ["train.py"; "--epochs"; "3"] /\
  outcome args_dot_slash env_dot_slash
  = Exc (ValueError "train.py is not in list").
Proof.
  destruct (argv_rewritten_or_value_error args_train env_train) as (S & _).
  destruct (argv_rewritten_or_value_error args_dot_slash env_dot_slash)
    as (_ & V).
  split.
  - destruct (S 2 eq_refl) as (_ & _ & rest & C & _ & F & _).
    rewrite F. injection C as <-. reflexivity.
  - apply V. vm_compute. intros [H|[H|[H|[]]]]; discriminate H.
Defined.

(** * Further properties of the command *)

(** ** What a run does not depend on *)

(** X1: the tuple of script arguments click hands over is never read; two
    invocations that agree on the script, the frequency, the output
    directory and the format run alike, whatever their [script_args].  What
    the script sees comes from [sys.argv] alone. *)
Theorem script_args_unused (a a' : Args) (env : Env) :
  script a = script a' ->
  frequency a = frequency a' ->
  outdir a = outdir a' ->
  format a = format a' ->
  run a env = run a' env.
Proof.
  destruct a as [s sa f o fm], a' as [s' sa' f' o' fm']. simpl.
  intros -> -> -> ->. reflexivity.
Qed.

Lemma script_args_unused_witness :
  run args_train env_train
  = run {| script := "train.py"; script_args := ["--epochs"; "3"];
           frequency := 1%float; outdir := "./"; format := "txt" |}
        env_train.
Proof.
  apply script_args_unused; reflexivity.
Defined.

Lemma segments_agree (a a' : Args) (env : Env) (l : list string) :
  script a = script a' ->
  outdir a = outdir a' ->
  spawn_calls a env = spawn_calls a' env ->
  report_calls a env = report_calls a' env ->
  prefix_calls a env l = prefix_calls a' env l /\
  completion_calls a env = completion_calls a' env.
Proof.
  intros S O P R.
  unfold prefix_calls, completion_calls, mkdir_calls, persist_calls, filePath,
    outPath.
  rewrite S, O, P, R. split; reflexivity.
Qed.

Lemma run_agrees (a a' : Args) (env : Env) :
  script a = script a' ->
  outdir a = outdir a' ->
  spawn_calls a env = spawn_calls a' env ->
  report_calls a env = report_calls a' env ->
  run a env = run a' env.
Proof.
  intros S O P R.
  assert (A : script_argv a env = script_argv a' env).
  { unfold script_argv, filePath. rewrite S. reflexivity. }
  destruct (script_argv a env) as [l|] eqn:E.
  - rewrite (run_reached a env l E), (run_reached a' env l (eq_sym A)).
    destruct (segments_agree a a' env l S O P R) as [-> ->]. reflexivity.
  - rewrite (run_not_reached a env E), (run_not_reached a' env (eq_sym A)).
    unfold filePath. rewrite S. reflexivity.
Qed.

(** X2: a process that owns no device never reads the frequency option: with
    an empty device list, two invocations that differ in the frequency only
    run alike. *)
Theorem frequency_unused_without_devices (a a' : Args) (env : Env) :
  device_configuration env = [] ->
  script a = script a' ->
  outdir a = outdir a' ->
  format a = format a' ->
  run a env = run a' env.
Proof.
  intros D S O F. apply run_agrees; [exact S | exact O | |].
  - unfold spawn_calls, has_devices. rewrite D. reflexivity.
  - unfold report_calls. rewrite F. reflexivity.
Qed.

Lemma frequency_unused_without_devices_witness :
  run args_train env_train_idle = run args_zero_hz env_train_idle.
Proof.
  apply frequency_unused_without_devices; reflexivity.
Defined.

(** X3: a process whose rank is not 0 never reads the format option: two
    invocations that differ in the format only run alike there. *)
Theorem format_unused_off_rank0 (a a' : Args) (env : Env) :
  rank env <> 0 ->
  script a = script a' ->
  frequency a = frequency a' ->
  outdir a = outdir a' ->
  run a env = run a' env.
Proof.
  intros R S F O. apply run_agrees; [exact S | exact O | |].
  - unfold spawn_calls. rewrite F. reflexivity.
  - unfold report_calls. rewrite (rank_eqb_false env R). reflexivity.
Qed.

Lemma format_unused_off_rank0_witness :
  run args_train env_train_idle
  = run {| script := "train.py"; script_args := []; frequency := 1%float;
           outdir := "./"; format := "json" |} env_train_idle.
Proof.
  apply format_unused_off_rank0; [discriminate | reflexivity ..].
Defined.

(** ** A script that leaves through [BaseException] *)

(** X4: when the script raises an exception that does not derive from
    [Exception] ([SystemExit], [KeyboardInterrupt]), the handler is skipped:
    the exception leaves the command as it is, nothing is logged as an
    error, the stop flag is never raised, a started worker is neither
    joined nor read, no storage is touched, and the process has made one
    rendezvous only. *)
Theorem base_exception_escapes (a : Args) (env : Env) (e : PyExc) :
  workload a env = Escaped e ->
  outcome a env = Exc e /\
  is_Exception e = false /\
  none is_error_log (calls a env) /\
  none is_stop_set (calls a env) /\
  Event.is_set (stop_event (final a env)) = false /\
  count is_process_start (calls a env)
  = (if has_devices env then 1 else 0) /\
  none is_collect (calls a env) /\
  none is_storage (calls a env) /\
  count is_barrier (calls a env) = 1.
Proof.
  intros W. destruct (run_escaped a env e W) as (l & E & R).
  assert (X : is_Exception e = false).
  { unfold workload in W. rewrite E in W.
    destruct (script_run env l) as [e'|]; [|discriminate W].
    destruct (is_Exception e') eqn:I; [discriminate W|].
    injection W as <-. exact I. }
  unfold outcome, calls, final. rewrite R.
  cbn [fst snd world_after trace stop_event].
  split; [reflexivity|]. split; [exact X|].
  split; [none_segments|]. split; [none_segments|].
  split; [reflexivity|].
  split.
  { unfold prefix_calls, setup_calls, spawn_calls. repeat rewrite count_app.
    rewrite count_closes by (intros; reflexivity).
    destruct (has_devices env); reflexivity. }
  split; [none_segments|]. split; [none_segments|]. count_segments.
Qed.

Lemma base_exception_escapes_witness :
  outcome args_train env_train_exits = Exc (SystemExit 3) /\
  none is_stop_set (calls args_train env_train_exits).
Proof.
  destruct (base_exception_escapes args_train env_train_exits (SystemExit 3)
              eq_refl) as (O & _ & _ & S & _).
  split; [exact O | exact S].
Defined.

(** ** The experiment storage *)

Section FaultFacts.

Variable faults : Call -> option PyExc.






End FaultFacts.



(** X6: device data is saved only for a process that started a worker and
    whose buffer object is truthy: the call carries the buffer read from
    the queue and the id the registration returned, and comes right after
    the registration of the buffer's data.  A completed run of such a
    process does save it; with a falsy buffer object the run is registered
    as null and nothing is saved. *)
Theorem device_data_saved_after_registration (a : Args) (env : Env) :
  (forall id ls, In (SaveDeviceData id ls) (calls a env) ->
     workload a env = Completed /\
     device_configuration env <> [] /\
     ls = worker_storage env /\ truth ls = true /\ id = run_id env /\
     exists pre post,
       calls a env
       = pre ++ AddExperimentRun (Some (toDict ls))
         :: SaveDeviceData id ls :: post) /\
  (workload a env = Completed -> device_configuration env <> [] ->
   truth (worker_storage env) = true ->
   count is_save (calls a env) = 1) /\
  (workload a env = Completed -> truth (worker_storage env) = false ->
   none is_save (calls a env) /\
   In (AddExperimentRun None) (calls a env)).
Proof.
  split; [|split].
  - intros id ls H.
    destruct (workload a env) as [| |e|e] eqn:W.
    + rewrite (calls_not_reached a env W) in H. in_cases H.
    + destruct (calls_completed a env W) as (l & E & C).
      split; [reflexivity|]. rewrite C in H |- *.
      unfold_segments_in H. unfold completion_calls, persist_calls, collected.
      destruct (has_devices env) eqn:D; cbv beta iota in H |- *;
        [destruct (truth (worker_storage env)) eqn:T|]; in_cases H.
      injection H as <- <-.
      split; [apply has_devices_nonempty; exact D|].
      split; [reflexivity|]. split; [exact T|]. split; [reflexivity|].
      exists (prefix_calls a env l ++ [StopSet] ++ collect_calls env
              ++ [Barrier]
              ++ mkdir_calls a env
              ++ [Log Debug "Result path";
                  StorageOpen
                    (Path.to_string (resultPath (outPath a) (filePath a)));
                  Log Debug "Creating new experiment"]).
      exists ([Barrier; Postprocessing; Barrier] ++ report_calls a env
              ++ [Barrier; StorageClose]).
      repeat (rewrite <- app_assoc; cbn [app]). reflexivity.
    + destruct (calls_failed a env e W) as (l & E & C). rewrite C in H.
      unfold_segments_in H. in_cases H.
    + destruct (calls_escaped a env e W) as (l & E & C). rewrite C in H.
      unfold_segments_in H. in_cases H.
  - intros W D T. apply has_devices_nonempty in D.
    destruct (calls_completed a env W) as (l & E & C). rewrite C.
    unfold_segments. rewrite D, T.
    repeat rewrite count_app. rewrite count_closes by (intros; reflexivity).
    branches; reflexivity.
  - intros W T. destruct (calls_completed a env W) as (l & E & C). rewrite C.
    split.
    + apply none_count. unfold_segments.
      destruct (has_devices env); rewrite ?T; count_segments.
    + unfold completion_calls, persist_calls, collected.
      destruct (has_devices env); rewrite ?T; in_search.
Qed.

Lemma device_data_saved_after_registration_witness :
  count is_save (calls args_train env_train) = 1 /\
  none is_save (calls args_train env_train_falsy) /\
  In (AddExperimentRun None) (calls args_train env_train_falsy).
Proof.
  destruct (device_data_saved_after_registration args_train env_train)
    as (_ & S & _).
  destruct (device_data_saved_after_registration args_train env_train_falsy)
    as (_ & _ & N).
  split.
  - apply S; [reflexivity | discriminate | reflexivity].
  - apply N; reflexivity.
Defined.

(** ** The output directory *)

(** X7: when the script completes, the storage is opened after the second
    rendezvous with no rendezvous in between.  Rank 0 checks the output
    directory there, creates it when it is missing, and ends the run with
    the directory present; any other rank neither checks nor creates it,
    goes from the rendezvous straight to opening the storage, and leaves
    the directory as it found it. *)
Theorem storage_opened_without_rendezvous (a : Args) (env : Env) :
  workload a env = Completed ->
  exists pre post,
    calls a env
    = pre ++ Barrier :: mkdir_calls a env
      ++ Log Debug "Result path"
      :: StorageOpen (Path.to_string (resultPath (outPath a) (filePath a)))
      :: post /\
    count is_barrier pre = 1 /\
    none is_barrier (mkdir_calls a env) /\
    (rank env = 0 ->
     count is_path_exists (mkdir_calls a env) = 1 /\
     count is_mkdir (mkdir_calls a env)
     = (if outdir_present env then 0 else 1) /\
     outdir_exists (final a env) = true) /\
    (rank env <> 0 ->
     mkdir_calls a env = [] /\
     none is_path_exists (calls a env) /\
     outdir_exists (final a env) = outdir_present env).
Proof.
  intros W. destruct (run_completed a env W) as (l & E & R).
  exists (prefix_calls a env l ++ [StopSet] ++ collect_calls env).
  exists (match collected env with
          | Some ls =>
              if truth ls
              then [Log Debug "Creating new experiment";
                    AddExperimentRun (Some (toDict ls));
                    SaveDeviceData (run_id env) ls]
              else [AddExperimentRun None]
          | None => [AddExperimentRun None]
          end
          ++ [Barrier; Postprocessing; Barrier] ++ report_calls a env
          ++ [Barrier; StorageClose]).
  unfold calls, final. rewrite R.
  cbn [snd world_after trace outdir_exists].
  split.
  { unfold completion_calls, persist_calls.
    repeat (rewrite <- app_assoc; cbn [app]). reflexivity. }
  split; [count_segments|]. split; [none_segments|]. split.
  - intros Z. apply Nat.eqb_eq in Z. unfold mkdir_calls. rewrite Z.
    repeat split; destruct (outdir_present env); reflexivity.
  - intros Z. apply rank_eqb_false in Z. unfold mkdir_calls. rewrite Z.
    split; [reflexivity|]. split; [|reflexivity].
    apply none_count. unfold_segments. rewrite Z. count_segments.
Qed.

Lemma storage_opened_without_rendezvous_witness :
  exists pre post,
    calls args_train env_train_idle
    = pre ++ Barrier :: mkdir_calls args_train env_train_idle
      ++ Log Debug "Result path" :: StorageOpen "train.hdf5" :: post.
Proof.
  destruct (storage_opened_without_rendezvous args_train env_train_idle
              eq_refl) as (pre & post & C & _).
  exists pre, post. exact C.
Defined.

(** ** Rendezvous across processes *)

(** X8: the number of rendezvous a process makes depends only on how its
    script ends, not on its rank, its devices, its options or the state of
    the output directory.  Two processes whose scripts complete make five
    each; a process whose script raises an [Exception] returns normally
    after one, while a peer whose script completes goes on to four more. *)
Theorem rendezvous_by_script_outcome (a1 a2 : Args) (env1 env2 : Env) :
  workload a1 env1 = Completed ->
  (workload a2 env2 = Completed ->
   count is_barrier (calls a1 env1) = count is_barrier (calls a2 env2)) /\
  (forall e, workload a2 env2 = Failed e ->
     outcome a2 env2 = Val tt /\
     count is_barrier (calls a1 env1)
     = count is_barrier (calls a2 env2) + 4).
Proof.
  intros W1. split.
  - intros W2. rewrite !barrier_count, W1, W2. reflexivity.
  - intros e W2. split.
    + destruct (run_failed a2 env2 e W2) as (l & _ & R).
      unfold outcome. rewrite R. reflexivity.
    + rewrite !barrier_count, W1, W2. reflexivity.
Qed.

Lemma rendezvous_by_script_outcome_witness :
  count is_barrier (calls args_train env_train)
  = count is_barrier (calls args_train env_train_idle) /\
  count is_barrier (calls args_train env_train)
  = count is_barrier (calls args_train env_train_fails) + 4.
Proof.
  destruct (rendezvous_by_script_outcome args_train args_train env_train
              env_train_idle eq_refl) as (S & _).
  destruct (rendezvous_by_script_outcome args_train args_train env_train
              env_train_fails eq_refl) as (_ & F).
  split.
  - exact (S eq_refl).
  - destruct (F (OtherException "RuntimeError") eq_refl) as (_ & N). exact N.
Defined.

(** ** The usual script name *)

Lemma append_empty (s : string) : (s ++ "")%string = s.
Proof.
  induction s as [|c s IH]; [reflexivity|]. simpl. rewrite IH. reflexivity.
Qed.

Lemma prefix_refl (s : string) : String.prefix s s = true.
Proof.
  induction s as [|c s IH]; [reflexivity|]. simpl.
  destruct (Ascii.ascii_dec c c) as [_|N]; [exact IH | now elim N].
Qed.

Lemma substring_str_from (i : nat) (n : string) :
  (String.substring 0 i n ++ Py.str_from i n)%string = n.
Proof.
  revert n. induction i as [|i IH]; intros n.
  - destruct n; reflexivity.
  - destruct n as [|c n]; [reflexivity|]. simpl. rewrite IH. reflexivity.
Qed.

Lemma name_stem_suffix (p : Path.t) :
  Path.name p = (Path.stem p ++ Path.suffix p)%string.
Proof.
  unfold Path.stem, Path.suffix.
  destruct (Py.rfind "." (Path.name p)) as [i|].
  - destruct (Nat.ltb 0 i && Nat.ltb i (String.length (Path.name p) - 1)).
    + symmetry. apply substring_str_from.
    + symmetry. apply append_empty.
  - symmetry. apply append_empty.
Qed.

(** Removing a non-empty [old] from [u ++ old], when [old] occurs nowhere
    before its final position, leaves [u]. *)
Lemma replace_single (old u : string) :
  old <> "" ->
  (forall k, k < String.length u -> occurs_at old (u ++ old) k = false) ->
  Py.replace old "" (u ++ old) = u.
Proof.
  intros N. destruct old as [|c0 old']; [now elim N|]. unfold Py.replace.
  induction u as [|c u IH]; intros H.
  - cbn [String.append Py.replace_scan]. rewrite prefix_refl.
    replace (String.length (String c0 old') - 1) with (String.length old')
      by (simpl; lia).
    pose proof (replace_scan_skip (String c0 old') "" old' "") as K.
    rewrite append_empty in K. rewrite K. reflexivity.
  - cbn [String.append Py.replace_scan].
    pose proof (H 0 ltac:(simpl; lia)) as H0. unfold occurs_at in H0.
    cbn [Py.str_from String.append] in H0. rewrite H0.
    rewrite IH; [reflexivity|].
    intros k K. apply (H (S k)). simpl. lia.
Qed.

(** X9: when the suffix of the script's file name occurs in the name only
    as its ending, the name of the experiment file is the stem of the
    script's name: removing every occurrence and stripping the extension
    agree. *)
Theorem script_name_is_stem (p : Path.t) :
  Path.suffix p <> "" ->
  (forall k, k < String.length (Path.stem p) ->
             occurs_at (Path.suffix p) (Path.name p) k = false) ->
  scriptName p = Path.stem p.
Proof.
  intros N H. unfold scriptName.
  rewrite (name_stem_suffix p).
  apply replace_single; [exact N|].
  rewrite <- name_stem_suffix. exact H.
Qed.

Lemma script_name_is_stem_witness :
  scriptName (Path.of_string "jobs/train.py") = "train".
Proof.
  apply (script_name_is_stem (Path.of_string "jobs/train.py")).
  - discriminate.
  - intros k K. vm_compute in K.
    do 5 (destruct k as [|k]; [reflexivity|]). lia.
Defined.

(** ** Paths and their strings *)

Lemma split_no_sep (x : string) :
  no_sep x = true -> Py.split Path.sep x = [x].
Proof.
  induction x as [|c x IH]; [reflexivity|]. simpl.
  destruct (Ascii.eqb c Path.sep); [discriminate|]. simpl.
  intros H. rewrite (IH H). reflexivity.
Qed.

Lemma split_cons_sep (x s : string) :
  no_sep x = true ->
  Py.split Path.sep (x ++ String Path.sep s) = x :: Py.split Path.sep s.
Proof.
  induction x as [|c x IH]; [reflexivity|]. simpl.
  destruct (Ascii.eqb c Path.sep); [discriminate|]. simpl.
  intros H. rewrite (IH H). reflexivity.
Qed.

Lemma split_parts_no_sep (s : string) :
  Forall (fun x => no_sep x = true) (Py.split Path.sep s).
Proof.
  induction s as [|c s IH]; [repeat constructor|]. simpl.
  destruct (Ascii.eqb c Path.sep) eqn:E; [constructor; [reflexivity | exact IH]|].
  destruct (Py.split Path.sep s) as [|w ws]; [repeat constructor; simpl; now rewrite E|].
  inversion IH as [|? ? W WS]; subst. constructor; [|exact WS].
  simpl. rewrite E, W. reflexivity.
Qed.

(** Parsing the joined components gives the components back. *)
Lemma split_concat (ps : list string) :
  Forall (fun x => component x = true) ps ->
  filter Path.keep (Py.split Path.sep (String.concat "/" ps)) = ps.
Proof.
  induction ps as [|x ps IH]; intros H; [reflexivity|].
  inversion H as [|? ? X PS]; subst.
  unfold component in X. apply andb_prop in X. destruct X as [K N].
  destruct ps as [|y ps].
  - simpl. rewrite (split_no_sep x N). simpl. rewrite K. reflexivity.
  - change (String.concat "/" (x :: y :: ps))
      with (x ++ String Path.sep (String.concat "/" (y :: ps)))%string.
    rewrite (split_cons_sep x _ N). cbn [filter]. rewrite K.
    rewrite (IH PS). reflexivity.
Qed.

(** The joined components do not start with the separator. *)
Lemma concat_head (ps : list string) :
  Forall (fun x => component x = true) ps ->
  Py.lstrip Path.sep (String.concat "/" ps) = String.concat "/" ps /\
  Path.splitroot (String.concat "/" ps) = ("", String.concat "/" ps).
Proof.
  intros H. destruct ps as [|x ps]; [split; reflexivity|].
  inversion H as [|? ? X PS]; subst.
  unfold component in X. apply andb_prop in X. destruct X as [K N].
  destruct x as [|c x]; [discriminate K|]. simpl in N.
  destruct (Ascii.eqb c Path.sep) eqn:E; [discriminate N|].
  assert (S : exists t, String.concat "/" (String c x :: ps) = String c t).
  { destruct ps; [exists x; reflexivity|]. eexists. reflexivity. }
  destruct S as [t ->]. unfold Path.splitroot. simpl. rewrite E.
  split; reflexivity.
Qed.

Lemma normal_of_string (s : string) : normal (Path.of_string s).
Proof.
  unfold normal, Path.of_string.
  destruct (Path.splitroot s) as [r rel] eqn:R. simpl. split.
  - unfold Path.splitroot in R. destruct s as [|c s'].
    + injection R as <- _. left. reflexivity.
    + destruct (Ascii.eqb c Path.sep).
      * destruct (Nat.eqb _ 2); injection R as <- _; auto.
      * injection R as <- _. left. reflexivity.
  - apply Forall_forall. intros x X. apply filter_In in X.
    destruct X as [I K]. unfold component. rewrite K. simpl.
    exact (proj1 (Forall_forall _ _) (split_parts_no_sep rel) x I).
Qed.

Lemma normal_join (p : Path.t) (s : string) :
  normal p -> normal (Path.join p s).
Proof.
  intros [R P]. unfold Path.join.
  pose proof (normal_of_string s) as [RQ PQ].
  destruct (Path.root (Path.of_string s)) eqn:E.
  - split; [exact R|]. simpl. apply Forall_app. split; assumption.
  - split; [rewrite E; exact RQ | exact PQ].
Qed.

(** Round trip: a path in normal form is parsed back from its string. *)
Lemma of_string_to_string (p : Path.t) :
  normal p -> Path.of_string (Path.to_string p) = p.
Proof.
  destruct p as [r ps]. intros [R P]. cbn [Path.root Path.parts] in R, P.
  destruct (concat_head ps P) as [L S].
  pose proof (split_concat ps P) as C.
  unfold Path.to_string. cbn [Path.root Path.parts].
  destruct R as [->|[->| ->]].
  - destruct ps as [|x ps]; [reflexivity|].
    cbn [String.append]. unfold Path.of_string. rewrite S, C. reflexivity.
  - cbn [String.append]. unfold Path.of_string, Path.splitroot.
    change (Ascii.eqb "/" Path.sep) with true. cbv iota.
    cbn [Py.lstrip]. change (Ascii.eqb "/" Path.sep) with true. cbv iota.
    rewrite L.
    replace (String.length (String "/" (String.concat "/" ps))
             - String.length (String.concat "/" ps)) with 1
      by (cbn [String.length]; lia).
    cbn [Nat.eqb]. rewrite C. reflexivity.
  - cbn [String.append]. unfold Path.of_string, Path.splitroot.
    change (Ascii.eqb "/" Path.sep) with true. cbv iota.
    cbn [Py.lstrip]. change (Ascii.eqb "/" Path.sep) with true. cbv iota.
    rewrite L.
    replace (String.length (String "/" (String "/" (String.concat "/" ps)))
             - String.length (String.concat "/" ps)) with 2
      by (cbn [String.length]; lia).
    cbn [Nat.eqb]. rewrite C. reflexivity.
Qed.

Lemma storage_open_path (a : Args) (env : Env) (p : string) :
  In (StorageOpen p) (calls a env) ->
  p = Path.to_string (resultPath (outPath a) (filePath a)).
Proof.
  intros H. rewrite calls_eq in H. unfold expected_calls in H.
  destruct (script_argv a env) as [l|]; [|in_cases H].
  destruct (script_run env l) as [e|]; [destruct (is_Exception e)|];
    unfold_segments_in H; in_cases H.
  all: injection H as <-; reflexivity.
Qed.

Lemma postprocess_run (s : string) (env : Env) :
  postprocess s env (init env)
  = (Val tt,
     {| sys_argv := argv0 env; start_event := Event.new;
        stop_event := Event.new; outdir_exists := outdir_present env;
        trace := [StorageOpen (Path.to_string (Path.of_string s));
                  Postprocessing; StorageClose] |}).
Proof. reflexivity. Qed.

(** ** [postprocess] after [monitor] *)

(** X10: [postprocess], given the path at which a run of [monitor] opened
    its experiment storage, opens the storage at that very path (the
    normalisation [Path] applies leaves it unchanged), post-processes it and
    closes it, and returns; it makes no rendezvous. *)
Theorem postprocess_opens_monitor_file (a : Args) (env env' : Env)
  (p : string) :
  In (StorageOpen p) (calls a env) ->
  postprocess_calls p env' = [StorageOpen p; Postprocessing; StorageClose] /\
  fst (postprocess p env' (init env')) = Val tt /\
  none is_barrier (postprocess_calls p env').
Proof.
  intros H. apply storage_open_path in H.
  assert (N : Path.to_string (Path.of_string p) = p).
  { rewrite H. rewrite of_string_to_string; [reflexivity|].
    apply normal_join. apply normal_of_string. }
  unfold postprocess_calls. rewrite postprocess_run.
  cbn [fst snd trace]. rewrite N.
  split; [reflexivity|]. split; [reflexivity|]. none_segments.
Qed.

Lemma postprocess_opens_monitor_file_witness :
  In (StorageOpen "out/a.b.hdf5") (calls args_two_suffixes env_two_suffixes) /\
  postprocess_calls "out/a.b.hdf5" env_train
  = [StorageOpen "out/a.b.hdf5"; Postprocessing; StorageClose].
Proof.
  assert (H : In (StorageOpen "out/a.b.hdf5")
                (calls args_two_suffixes env_two_suffixes)).
  { vm_compute. do 20 right. left. reflexivity. }
  split; [exact H|].
  destruct (postprocess_opens_monitor_file args_two_suffixes
              env_two_suffixes env_train "out/a.b.hdf5" H) as (C & _).
  exact C.
Defined.

(** ** A script given in normal form *)

(** X11: when the script is given in the form [Path] prints (no [./], no
    doubled or trailing slash), the string looked up in [sys.argv] is the
    script argument itself; if [sys.argv] holds it, the script is reached
    and runs under a [sys.argv] that starts with it. *)
Theorem normalised_script_is_found (a : Args) (env : Env) (s : string) :
  script a = Path.to_string (Path.of_string s) ->
  In (script a) (argv0 env) ->
  script_path a = script a /\
  workload a env <> NotReached /\
  exists rest,
    sys_argv (final a env) = script a :: rest /\
    In (ExecScript (script a) (script a :: rest)) (calls a env).
Proof.
  intros S I.
  assert (P : script_path a = script a).
  { unfold script_path, filePath. rewrite S.
    rewrite of_string_to_string; [reflexivity | apply normal_of_string]. }
  split; [exact P|].
  destruct (Py.index (script a) (argv0 env)) as [i|] eqn:X.
  - destruct (index_some _ _ _ X) as (_ & _ & rest & C).
    assert (E : script_argv a env = Some (script a :: rest)).
    { unfold script_argv. fold (script_path a). rewrite P, X, C.
      reflexivity. }
    split.
    { unfold workload. rewrite E.
      destruct (script_run env _) as [e|]; [destruct (is_Exception e)|];
        discriminate. }
    exists rest. split.
    + unfold final. rewrite (run_reached a env _ E).
      destruct (script_run env _) as [e|]; [destruct (is_Exception e)|];
        reflexivity.
    + rewrite calls_eq. unfold expected_calls. rewrite E.
      destruct (script_run env _) as [e|]; [destruct (is_Exception e)|];
        unfold prefix_calls; fold (script_path a); rewrite P; in_search.
  - apply index_none in X. elim (X I).
Qed.

Lemma normalised_script_is_found_witness :
  workload args_train env_train <> NotReached.
Proof.
  destruct (normalised_script_is_found args_train env_train "./train.py")
    as (_ & W & _).
  - reflexivity.
  - simpl. auto.
  - exact W.
Defined.
